(** * ProGlot AI: the history lifecycle of [app.py]

    A shallow embedding of the Streamlit script [src/app.py]: the per-language
    history files, the sliding window, the session block, the cold start, the
    user turn, the clear-history switch and the export text.

    Section 1 of the script (page setup, the API key check that stops the
    script when the key is missing) is taken to have passed.

    Conventions of the embedding.
    - Python [str] is [string], read as the UTF-8 bytes of the text, which is
      how the literals of the script stand in this file. [strip] removes all
      the white space that Python's does, inside ASCII and outside. [lower]
      and [isalnum] are the ASCII ones: the script uses the first only to
      compare a text with [delete], where it agrees with Python's on every
      text, and the second only on the six ASCII language codes; what is
      proved about the characters of a file name is stated for ASCII codes.
    - What the script keeps between runs ([st.session_state]), the directory
      of history files, what it draws and what it prints are the fields of one
      [machine]; a script block is a function on machines that may end in a
      signal (an uncaught exception, [st.rerun()]).
    - The Gemini client ([google.generativeai]) is not code of the script: the
      conversion of a seed history is a Section variable, and what a
      [send_message] call does (it raises, it returns a response with a text,
      it returns a response whose text cannot be read) is an input of the
      block that makes it. Python's [str] on a parsed value is a Section
      variable too; the properties use it on strings only. *)

From Stdlib Require Import String Ascii List Lia Bool.
From stdpp Require Import base option strings pretty gmap list.

Local Open Scope string_scope.
Set Warnings "-register-all".

(** ** Python values *)

(** What [json.load] can return. A number keeps its literal: the script never
    computes with one. An object is its fields in file order, one per key. *)
Inductive json : Type :=
| JNull
| JBool (b : bool)
| JNum (literal : string)
| JStr (s : string)
| JList (items : list json)
| JDict (fields : list (string * json)).

(** The exception classes that the script raises, catches or lets through. *)
Inductive exn_class : Type :=
| TypeError
| AttributeError
| IndexError
| KeyError
| OSError
| JSONDecodeError
| ServiceUnavailable
| ResourceExhausted
| OtherException.

(** An exception: its class and [str(e)]. *)
Record exn : Type := Exn { exn_kind : exn_class; exn_text : string }.

Definition exn_class_eqb (a b : exn_class) : bool :=
  match a, b with
  | TypeError, TypeError | AttributeError, AttributeError
  | IndexError, IndexError | KeyError, KeyError | OSError, OSError
  | JSONDecodeError, JSONDecodeError
  | ServiceUnavailable, ServiceUnavailable
  | ResourceExhausted, ResourceExhausted
  | OtherException, OtherException => true
  | _, _ => false
  end.

(** [d.get(key)] on the fields of an object. *)
Fixpoint dict_get (key : string) (fields : list (string * json)) : option json :=
  match fields with
  | [] => None
  | (k, v) :: rest => if String.eqb k key then Some v else dict_get key rest
  end.

(** [x.get(key, dflt)]: only a dict has [get]. *)
Definition py_get (x : json) (key : string) (dflt : json) : exn + json :=
  match x with
  | JDict fields => inr (default dflt (dict_get key fields))
  | _ => inl (Exn AttributeError "object has no attribute 'get'")
  end.

(** [x[0]]: the first item of a list, the first character of a string. An
    object parsed from JSON has string keys only, so [0] is never one. *)
Definition py_first (x : json) : exn + json :=
  match x with
  | JList (v :: _) => inr v
  | JList [] => inl (Exn IndexError "list index out of range")
  | JStr (String c _) => inr (JStr (String c EmptyString))
  | JStr EmptyString => inl (Exn IndexError "string index out of range")
  | JDict _ => inl (Exn KeyError "0")
  | _ => inl (Exn TypeError "object is not subscriptable")
  end.

(** [len(x)]. *)
Definition py_len (x : json) : exn + nat :=
  match x with
  | JList items => inr (length items)
  | JStr s => inr (String.length s)
  | JDict fields => inr (length fields)
  | _ => inl (Exn TypeError "object has no len()")
  end.

(** [l[-n:]] on a list: the last [n] items, all of them when there are fewer;
    [l[-0:]] is [l[0:]], the whole list. *)
Definition slice_last {A : Type} (n : nat) (l : list A) : list A :=
  match n with
  | O => l
  | S _ => drop (length l - n) l
  end.

(** [x[-n:]]: lists and strings can be sliced. *)
Definition py_slice_last (n : nat) (x : json) : exn + json :=
  match x with
  | JList items => inr (JList (slice_last n items))
  | JStr s => inr (JStr (string_of_list_ascii (slice_last n (list_ascii_of_string s))))
  | JDict _ => inl (Exn TypeError "unhashable type: 'slice'")
  | _ => inl (Exn TypeError "object is not subscriptable")
  end.

(** [for item in x]: the items of a list, the keys of a dict, the characters
    of a string. *)
Definition py_iter (x : json) : exn + list json :=
  match x with
  | JList items => inr items
  | JDict fields => inr (map (fun kv => JStr (fst kv)) fields)
  | JStr s => inr (map (fun c => JStr (String c EmptyString)) (list_ascii_of_string s))
  | _ => inl (Exn TypeError "object is not iterable")
  end.

(** ** Strings *)

Definition is_digit (c : ascii) : bool :=
  let n := nat_of_ascii c in (48 <=? n)%nat && (n <=? 57)%nat.
Definition is_upper (c : ascii) : bool :=
  let n := nat_of_ascii c in (65 <=? n)%nat && (n <=? 90)%nat.
Definition is_lower (c : ascii) : bool :=
  let n := nat_of_ascii c in (97 <=? n)%nat && (n <=? 122)%nat.

(** [c.isalnum()] on an ASCII character. *)
Definition isalnum (c : ascii) : bool := is_digit c || is_upper c || is_lower c.

(** [c.isspace()] on an ASCII character: tab, line feed, vertical tab, form
    feed, carriage return, the four separators 28 to 31, and the space. *)
Definition isspace (c : ascii) : bool :=
  let n := nat_of_ascii c in
  ((9 <=? n)%nat && (n <=? 13)%nat) || ((28 <=? n)%nat && (n <=? 32)%nat).

(** The white space that takes two bytes: U+0085 and U+00A0. *)
Definition isspace2 (a b : ascii) : bool :=
  (nat_of_ascii a =? 194)%nat
  && ((nat_of_ascii b =? 133)%nat || (nat_of_ascii b =? 160)%nat).

(** The white space that takes three bytes: U+1680, U+2000 to U+200A,
    U+2028, U+2029, U+202F, U+205F and U+3000. With [isspace] and
    [isspace2] these are all the characters that [str.strip()] removes. *)
Definition isspace3 (a b c : ascii) : bool :=
  let x := nat_of_ascii a in
  let y := nat_of_ascii b in
  let z := nat_of_ascii c in
  ((x =? 225)%nat && (y =? 154)%nat && (z =? 128)%nat)
  || ((x =? 226)%nat && (y =? 128)%nat
      && (((128 <=? z)%nat && (z <=? 138)%nat)
          || (z =? 168)%nat || (z =? 169)%nat || (z =? 175)%nat))
  || ((x =? 226)%nat && (y =? 129)%nat && (z =? 159)%nat)
  || ((x =? 227)%nat && (y =? 128)%nat && (z =? 128)%nat).


Definition lower_char (c : ascii) : ascii :=
  if is_upper c then ascii_of_nat (nat_of_ascii c + 32) else c.

Fixpoint filter_chars (keep : ascii -> bool) (s : string) : string :=
  match s with
  | EmptyString => EmptyString
  | String c rest =>
      if keep c then String c (filter_chars keep rest) else filter_chars keep rest
  end.

(** Every character of [s] passes the test. *)
Fixpoint all_chars (test : ascii -> bool) (s : string) : bool :=
  match s with
  | EmptyString => true
  | String c rest => test c && all_chars test rest
  end.

(** An ASCII character. *)
Definition ascii_char (c : ascii) : bool := (nat_of_ascii c <? 128)%nat.

(** The text has ASCII characters only. *)
Definition is_ascii (s : string) : bool := all_chars ascii_char s.

(** [s.lower()] on the ASCII letters. Python also lowers the letters outside
    ASCII, and none of them becomes a letter of [delete] (of the characters
    outside ASCII only U+0130 and U+212A get an ASCII letter, [i] and [k]):
    the script compares the lowered text with [delete] and does nothing else
    with it, and for that comparison the two agree. *)
Fixpoint lower (s : string) : string :=
  match s with
  | EmptyString => EmptyString
  | String c rest => String (lower_char c) (lower rest)
  end.

(** [s.lstrip()]: the white space at the front goes, character by
    character. *)
Fixpoint lstrip (s : string) : string :=
  match s with
  | EmptyString => EmptyString
  | String a rest =>
      if isspace a then lstrip rest
      else match rest with
           | EmptyString => s
           | String b rest2 =>
               if isspace2 a b then lstrip rest2
               else match rest2 with
                    | EmptyString => s
                    | String c rest3 => if isspace3 a b c then lstrip rest3 else s
                    end
           end
  end.

(** White space only. *)
Definition is_blank (s : string) : bool :=
  match lstrip s with
  | EmptyString => true
  | String _ _ => false
  end.

(** [s.rstrip()]: the text is cut where only white space follows. *)
Fixpoint rstrip (s : string) : string :=
  match s with
  | EmptyString => EmptyString
  | String c rest => if is_blank s then EmptyString else String c (rstrip rest)
  end.

(** [s.strip()]. *)
Definition strip (s : string) : string := rstrip (lstrip s).

(** [needle in hay]. *)
Definition mentions (hay needle : string) : Prop :=
  exists before after, hay = before +:+ needle +:+ after.

(** ** The Gemini client's objects *)

(** A part of a message: one with a [text] attribute, or any other object,
    known by its [str(part)]. *)
Inductive Part : Type :=
| TextPart (text : string)
| RawPart (repr : string).

Record Content : Type := { role : string; parts : list Part }.

Record GenerativeModel : Type :=
  { model_name : string; system_instruction : string }.

Record ChatSession : Type :=
  { model : GenerativeModel; history : list Content }.

(** What one [send_message] call does, as the client documents it. It
    raises and leaves the session as it was; or it returns a response with a
    text; or it returns a response that holds no text (a candidate without a
    text part), whose [text] accessor raises when the script reads it. *)
Inductive gateway : Type :=
| Replies (text : string)
| Raises (e : exn)
| RepliesWithoutText (received : Content) (e : exn).

(** The response object, of which the script reads [text] and nothing else:
    the accessor returns the text or raises. *)
Record Response : Type := { response_text : exn + string }.

(** After a call that returned, the session's [history] ends with the content
    sent (role [user]) and the content received; a text sent or received is
    kept as one text part, and a reply has the role [model]. *)
Definition sent_content (text : string) : Content :=
  {| role := "user"; parts := [TextPart text] |}.
Definition received_content (text : string) : Content :=
  {| role := "model"; parts := [TextPart text] |}.

(** ** Files, session state, screen *)

(** A file's text, up to [json.load]: text that parses to a value, text on
    which the parser raises [JSONDecodeError], or text on which reading and
    parsing raise another exception (bytes that are no UTF-8, a number too
    long to convert, brackets nested too deep). *)
Inductive file_content : Type :=
| Json (value : json)
| Garbage (raw : string)
| Unreadable (raw : string) (e : exn).

(** The working directory: its files, and the paths on which [open] and
    [os.remove] raise [OSError]. *)
Record filesystem : Type :=
  { files : gmap string file_content; locked : gset string }.

(** [st.session_state]: a key is absent ([None]) or holds a value;
    [chat_session] may hold Python's [None]. *)
Record session_state : Type :=
  { selected_label_key : option string;
    chat_session : option (option ChatSession);
    current_lang_code : option string;
    is_initialized : option bool }.

(** What the script draws. Of the containers an expander keeps its label and
    a chat bubble its role; the sidebar, spinners and dividers are not kept. *)
Inductive element : Type :=
| st_header (body : string)
| st_expander (label : string)
| st_caption (body : string)
| st_warning (body : string)
| st_info (body : string)
| st_error (body : string)
| st_code (body : string)
| st_title (body : string)
| st_subheader (body : string)
| st_chat_markdown (who : string) (body : string).

(** The two places of the script that call [send_message]. *)
Inductive call_site : Type := ColdStart | UserTurn.

Record machine : Type :=
  { disk : filesystem;
    state : session_state;
    screen : list element;
    console : list string;
    sent : list (call_site * string) }.

(** ** Script blocks *)

(** How a block ends when it does not run to its end. *)
Inductive signal : Type :=
| Rerun
| Uncaught (e : exn).

Definition Script (A : Type) : Type := machine -> (signal + A) * machine.

Definition ret {A : Type} (a : A) : Script A := fun m => (inr a, m).

Definition bind {A B : Type} (c : Script A) (k : A -> Script B) : Script B :=
  fun m =>
    match c m with
    | (inr a, m') => k a m'
    | (inl s, m') => (inl s, m')
    end.

Definition raise {A : Type} (e : exn) : Script A :=
  fun m => (inl (Uncaught e), m).

(** [try: body / except Exception as e: handler]. What the body did before it
    raised stays done; [st.rerun()] is no [Exception] and passes through. *)
Definition try_except {A : Type} (body : Script A) (handler : exn -> Script A)
  : Script A :=
  fun m =>
    match body m with
    | (inl (Uncaught e), m') => handler e m'
    | r => r
    end.

(** A pure computation that may raise. *)
Definition lift {A : Type} (r : exn + A) : Script A :=
  match r with
  | inr a => ret a
  | inl e => raise e
  end.

Declare Scope script_scope.
Delimit Scope script_scope with script.
Notation "'let*' x ':=' c 'in' k" := (bind c (fun x => k))
  (at level 10, x name, c at level 200, k at level 200) : script_scope.
Notation "c ';;;' k" := (bind c (fun _ => k))
  (at level 100, k at level 200, right associativity) : script_scope.
Local Open Scope script_scope.

(** The same sequencing for a pure computation that may raise. *)
Definition and_then {A B : Type} (r : exn + A) (k : A -> exn + B) : exn + B :=
  match r with
  | inr a => k a
  | inl e => inl e
  end.
Notation "'let+' x ':=' r 'in' k" := (and_then r (fun x => k))
  (at level 10, x name, r at level 200, k at level 200) : script_scope.

Definition with_disk (d : filesystem) (m : machine) : machine :=
  {| disk := d; state := state m; screen := screen m; console := console m;
     sent := sent m |}.
Definition with_state (s : session_state) (m : machine) : machine :=
  {| disk := disk m; state := s; screen := screen m; console := console m;
     sent := sent m |}.

Definition draw (e : element) : Script unit :=
  fun m => (inr tt,
            {| disk := disk m; state := state m; screen := screen m ++ [e];
               console := console m; sent := sent m |}).

Definition print (line : string) : Script unit :=
  fun m => (inr tt,
            {| disk := disk m; state := state m; screen := screen m;
               console := console m ++ [line]; sent := sent m |}).

Definition st_rerun {A : Type} : Script A := fun m => (inl Rerun, m).

Definition get_state : Script session_state := fun m => (inr (state m), m).
Definition put_state (s : session_state) : Script unit :=
  fun m => (inr tt, with_state s m).

Definition set_selected_label_key (v : string) : Script unit :=
  let* s := get_state in
  put_state {| selected_label_key := Some v; chat_session := chat_session s;
               current_lang_code := current_lang_code s;
               is_initialized := is_initialized s |}.
Definition set_chat_session (v : option ChatSession) : Script unit :=
  let* s := get_state in
  put_state {| selected_label_key := selected_label_key s;
               chat_session := Some v;
               current_lang_code := current_lang_code s;
               is_initialized := is_initialized s |}.
Definition set_current_lang_code (v : string) : Script unit :=
  let* s := get_state in
  put_state {| selected_label_key := selected_label_key s;
               chat_session := chat_session s;
               current_lang_code := Some v;
               is_initialized := is_initialized s |}.
Definition set_is_initialized (v : bool) : Script unit :=
  let* s := get_state in
  put_state {| selected_label_key := selected_label_key s;
               chat_session := chat_session s;
               current_lang_code := current_lang_code s;
               is_initialized := Some v |}.

(** Reading an attribute of [st.session_state] that was never set. *)
Definition no_such_key {A : Type} (key : string) : Script A :=
  raise (Exn AttributeError ("st.session_state has no attribute " +:+ key)).

(** ** File primitives *)

Definition os_error (path : string) : exn :=
  Exn OSError ("[Errno 13] Permission denied: '" +:+ path +:+ "'").

(** [os.path.exists(path)]. *)
Definition os_path_exists (path : string) : Script bool :=
  fun m => (inr (bool_decide (is_Some (files (disk m) !! path))), m).

(** [with open(path, "r") as f: json.load(f)]. *)
Definition read_json (path : string) : Script json :=
  fun m =>
    if bool_decide (path ∈ locked (disk m)) then (inl (Uncaught (os_error path)), m)
    else match files (disk m) !! path with
         | Some (Json v) => (inr v, m)
         | Some (Garbage _) =>
             (inl (Uncaught (Exn JSONDecodeError "Expecting value")), m)
         | Some (Unreadable _ e) => (inl (Uncaught e), m)
         | None => (inl (Uncaught (os_error path)), m)
         end.

(** [with open(path, "w") as f: json.dump(data, f)]: the file now holds
    [data] and nothing of what it held. *)
Definition write_json (path : string) (data : json) : Script unit :=
  fun m =>
    if bool_decide (path ∈ locked (disk m)) then (inl (Uncaught (os_error path)), m)
    else (inr tt,
          with_disk {| files := <[path := Json data]> (files (disk m));
                       locked := locked (disk m) |} m).

(** [os.remove(path)]. *)
Definition os_remove (path : string) : Script unit :=
  fun m =>
    if bool_decide (path ∈ locked (disk m)) then (inl (Uncaught (os_error path)), m)
    else match files (disk m) !! path with
         | Some _ =>
             (inr tt,
              with_disk {| files := delete path (files (disk m));
                           locked := locked (disk m) |} m)
         | None => (inl (Uncaught (os_error path)), m)
         end.

(** ** Section 2 of the script: file handling *)

Definition MAX_HISTORY_LENGTH : nat := 20.

(** The default of [os.getenv("GEMINI_MODEL", ...)]. *)
Definition MODEL_NAME : string := "gemini-1.5-flash".

(** The character test is the ASCII one: the name is exact for a code of
    ASCII characters, as the six codes of [LANG_OPTIONS] are. *)
Definition get_history_filename (lang_code : string) : string :=
  let safe_name := filter_chars isalnum lang_code in
  "history_" +:+ safe_name +:+ ".json".

(** The inner loop of [save_history_safe]: one [{"text": ...}] per part. *)
Definition part_data (part : Part) : json :=
  match part with
  | TextPart text => JDict [("text", JStr text)]
  | RawPart repr => JDict [("text", JStr repr)]
  end.

(** The outer loop: one [{"role": ..., "parts": [...]}] per message. *)
Definition message_data (message : Content) : json :=
  JDict [("role", JStr (role message));
         ("parts", JList (map part_data (parts message)))].

Definition save_history_safe (history : list Content) (lang_code : string)
  : Script unit :=
  let filename := get_history_filename lang_code in
  try_except
    (let history_data := map message_data history in
     write_json filename (JList history_data))
    (fun e => print ("Error: Could not save history - " +:+ exn_text e)).

Definition load_history_safe (lang_code : string) : Script json :=
  let filename := get_history_filename lang_code in
  let* found := os_path_exists filename in
  if negb found then ret (JList [])
  else
    try_except
      (read_json filename)
      (fun e =>
         if exn_class_eqb (exn_kind e) JSONDecodeError then ret (JList [])
         else (draw (st_error ("File read error: " +:+ exn_text e));;;
               ret (JList []))).

Definition clear_current_history (lang_code : string) : Script unit :=
  let filename := get_history_filename lang_code in
  let* found := os_path_exists filename in
  (if found then
     try_except
       (os_remove filename)
       (fun e => if exn_class_eqb (exn_kind e) OSError then ret tt else raise e)
   else ret tt);;;
  set_chat_session None;;;
  st_rerun.

(** ** Section 3: the language options *)

(** The keys of [LANG_OPTIONS]; the select box offers these and no other. *)
Inductive language : Type :=
| Italian | Spanish | German | French | Japanese | English.

(** A key as written: the display name. *)
Definition display_name (l : language) : string :=
  match l with
  | Italian => "Italian (İtalyanca) 🇮🇹"
  | Spanish => "Spanish (İspanyolca) 🇪🇸"
  | German => "German (Almanca) 🇩🇪"
  | French => "French (Fransızca) 🇫🇷"
  | Japanese => "Japanese (Japonca) 🇯🇵"
  | English => "English (İngilizce) 🇬🇧"
  end.

(** [LANG_OPTIONS[key]]: the file code. *)
Definition LANG_OPTIONS (l : language) : string :=
  match l with
  | Italian => "It"
  | Spanish => "Es"
  | German => "De"
  | French => "Fr"
  | Japanese => "Jp"
  | English => "En"
  end.

(** What one run of the script is given: the widgets' values, and what the
    service does with each [send_message] call the run may make. *)
Record inputs : Type :=
  { selected : language;
    confirm_text : string;
    confirm_delete : bool;
    refresh : bool;
    user_input : option string;
    cold_start_reply : gateway;
    user_turn_reply : gateway }.

Definition LF : string := String (ascii_of_nat 10) EmptyString.

(** The tutor's instruction: the same text twice in the script, once for the
    export and once for the model. *)
Definition export_system_instruction (selected_label : string) : string :=
  "
You are 'ProGlot', an expert " +:+ selected_label +:+ " tutor for Turkish speakers.
IMPORTANT: This is an ongoing lesson. Remember previous mistakes and progress.

RULES:
1. Explain concepts in Turkish, but provide examples strictly in " +:+ selected_label +:+ ".
2. Correct mistakes gently and explain the 'Why' behind the rule.
3. End every response with an interactive question or exercise.
4. NEVER just provide the answer; keep the dialogue active.

TONE: Professional, Patient, Encouraging.
".

Definition SYSTEM_INSTRUCTION (selected_label : string) : string :=
  "
You are 'ProGlot', an expert " +:+ selected_label +:+ " tutor for Turkish speakers.
IMPORTANT: This is an ongoing lesson. Remember previous mistakes and progress.

RULES:
1. Explain concepts in Turkish, but provide examples strictly in " +:+ selected_label +:+ ".
2. Correct mistakes gently and explain the 'Why' behind the rule.
3. End every response with an interactive question or exercise.
4. NEVER just provide the answer; keep the dialogue active.

TONE: Professional, Patient, Encouraging.
".

(** The generation settings (temperature, top_p, output length) go to the
    service as they are and are not kept. *)
Definition initialize_model (selected_label : string) : GenerativeModel :=
  {| model_name := MODEL_NAME;
     system_instruction := SYSTEM_INSTRUCTION selected_label |}.

(** [x == "model"]. *)
Definition is_str (x : json) (s : string) : bool :=
  match x with
  | JStr t => String.eqb t s
  | _ => false
  end.

(** The sliding window of the session block:
    [past_history[-MAX_HISTORY_LENGTH:]] when [len(past_history)] exceeds the
    maximum, else [past_history] itself. *)
Definition recent_history_of (past_history : json) : exn + json :=
  let+ n := py_len past_history in
  if (MAX_HISTORY_LENGTH <? n)%nat
  then py_slice_last MAX_HISTORY_LENGTH past_history
  else inr past_history.

(** ** Reading a stored transcript back *)

(** The message a stored object stands for: its role and the texts of its
    parts. Used to compare what [load_history_safe] returns with what
    [save_history_safe] was given. *)
Definition part_of_data (x : json) : option Part :=
  match x with
  | JDict fields =>
      match dict_get "text" fields with
      | Some (JStr text) => Some (TextPart text)
      | _ => None
      end
  | _ => None
  end.

Definition content_of_data (x : json) : option Content :=
  match x with
  | JDict fields =>
      match dict_get "role" fields, dict_get "parts" fields with
      | Some (JStr r), Some (JList ps) =>
          match mapM part_of_data ps with
          | Some ps' => Some {| role := r; parts := ps' |}
          | None => None
          end
      | _, _ => None
      end
  | _ => None
  end.

Definition transcript_of_data (x : json) : option (list Content) :=
  match x with
  | JList items => mapM content_of_data items
  | _ => None
  end.

(** A transcript of text parts only. *)
Definition text_only (T : list Content) : Prop :=
  Forall (fun message => Forall (fun part => exists t, part = TextPart t)
                           (parts message)) T.

(** The text of a part as [save_history_safe] stores it. *)
Definition part_text (part : Part) : string :=
  match part with
  | TextPart text => text
  | RawPart repr => repr
  end.

(** A message as its record keeps it: the role, and every part by its text. *)
Definition as_stored (message : Content) : Content :=
  {| role := role message;
     parts := map (fun part => TextPart (part_text part)) (parts message) |}.

(** ** The export, in the spec's words *)




(** ** When the session block runs *)

(** No session is kept, or the kept one is bound to another language. *)
Definition needs_session (inp : inputs) (m : machine) : Prop :=
  chat_session (state m) = None
  \/ current_lang_code (state m) <> Some (LANG_OPTIONS (selected inp)).

(** ** Blocks that only draw *)

(** [m'] is [m] but for the screen and the remembered selection. *)
Definition drew_only (m m' : machine) : Prop :=
  disk m' = disk m
  /\ console m' = console m
  /\ sent m' = sent m
  /\ chat_session (state m') = chat_session (state m)
  /\ current_lang_code (state m') = current_lang_code (state m)
  /\ is_initialized (state m') = is_initialized (state m).

(** The calls of a list are all user turns: no cold start among them. *)
Definition user_turns_only (calls : list (call_site * string)) : Prop :=
  Forall (fun call => fst call = UserTurn) calls.

(** ** What a block keeps *)

(** However a run of [c] ends, the machine after it is related to the
    machine before it. *)
Definition keeps {A : Type} (R : machine -> machine -> Prop) (c : Script A) : Prop :=
  forall m, R m (snd (c m)).

(** Nothing written, nothing printed, no call made. *)
Definition quiet (m m' : machine) : Prop :=
  disk m' = disk m /\ sent m' = sent m /\ console m' = console m.

(** Only the file [path] may differ. *)
Definition only_touches (path : string) (m m' : machine) : Prop :=
  locked (disk m') = locked (disk m)
  /\ forall other, other <> path ->
                   files (disk m') !! other = files (disk m) !! other.

(** Every file that was there is still there. *)
Definition no_file_lost (m m' : machine) : Prop :=
  locked (disk m') = locked (disk m)
  /\ forall path, is_Some (files (disk m) !! path) ->
                  is_Some (files (disk m') !! path).

(** ** Turns in a row *)

(** The file of the selected language holds what the live session holds. *)
Definition in_sync (inp : inputs) (m : machine) : Prop :=
  exists session,
    chat_session (state m) = Some (Some session)
    /\ files (disk m) !! get_history_filename (LANG_OPTIONS (selected inp))
       = Some (Json (JList (map message_data (history session)))).



(** The call returns a response whose [text] cannot be read. *)
Definition lacks_text (reply : gateway) : bool :=
  match reply with
  | RepliesWithoutText _ _ => true
  | _ => false
  end.



(** ** The chat bubbles *)

(** The bubble of one message of the session: [user] for the role [user],
    [assistant] for any other, with the text of the first part. *)
Definition bubble (message : Content) : element :=
  st_chat_markdown
    (if String.eqb (role message) "user" then "user" else "assistant")
    (match parts message with
     | part :: _ => part_text part
     | [] => ""
     end).

(** The first part of the message exists and has a [text]. *)
Definition starts_with_text (message : Content) : Prop :=
  exists text rest, parts message = TextPart text :: rest.

(** ** Sample data *)

(** A client that takes a seed exactly when it has the stored shape. *)
Definition strict_contents (x : json) : exn + list Content :=
  match transcript_of_data x with
  | Some T => inr T
  | None => inl (Exn TypeError "Could not create `Content` from the seed")
  end.

(** A sample [str(x)]: exact on strings, [None] and the booleans; a number
    is shown by its literal, which is what Python prints for an integer
    written without a sign, and a list or an object is not rendered. The
    samples hold strings only. *)
Definition scalar_str (x : json) : string :=
  match x with
  | JNull => "None"
  | JBool true => "True"
  | JBool false => "False"
  | JNum literal => literal
  | JStr s => s
  | JList _ | JDict _ => ""
  end.

(** A transcript of [n] messages, student and model in turn. *)
Definition sample_transcript (n : nat) : list Content :=
  map (fun i => {| role := if Nat.even i then "user" else "model";
                   parts := [TextPart ("message " +:+ pretty i)] |})
      (seq 0 n).

Definition no_state : session_state :=
  {| selected_label_key := None; chat_session := None;
     current_lang_code := None; is_initialized := None |}.

(** A first run in an empty directory. *)
Definition empty_machine : machine :=
  {| disk := {| files := ∅; locked := ∅ |};
     state := no_state; screen := []; console := []; sent := [] |}.

(** A first run beside an Italian file with the given content. *)
Definition machine_with (content : file_content) : machine :=
  {| disk := {| files := {[ "history_It.json" := content ]}; locked := ∅ |};
     state := no_state; screen := []; console := []; sent := [] |}.

(** A run with a live Italian session of the given history. *)
Definition machine_in_session (h : list Content) : machine :=
  {| disk := {| files := {[ "history_It.json" := Json (JList (map message_data h)) ]};
                locked := ∅ |};
     state := {| selected_label_key := Some (display_name Italian);
                 chat_session :=
                   Some (Some {| model := initialize_model (display_name Italian);
                                 history := h |});
                 current_lang_code := Some "It";
                 is_initialized := Some true |};
     screen := []; console := []; sent := [] |}.

(** Italian selected, nothing pressed, nothing typed. *)
Definition idle_inputs (cold : gateway) : inputs :=
  {| selected := Italian; confirm_text := ""; confirm_delete := false;
     refresh := false; user_input := None;
     cold_start_reply := cold; user_turn_reply := Replies "" |}.

(** Italian selected, a message typed. *)
Definition typed_inputs (text : string) (reply : gateway) : inputs :=
  {| selected := Italian; confirm_text := ""; confirm_delete := false;
     refresh := false; user_input := Some text;
     cold_start_reply := Replies ""; user_turn_reply := reply |}.

(** Italian selected, the delete button pressed with a confirmation text. *)
Definition delete_inputs (typed : string) : inputs :=
  {| selected := Italian; confirm_text := typed; confirm_delete := true;
     refresh := false; user_input := None;
     cold_start_reply := Replies ""; user_turn_reply := Replies "" |}.

(** A live Italian session beside a Spanish file. *)
Definition two_language_machine : machine :=
  {| disk := {| files :=
                  {[ "history_It.json" :=
                       Json (JList (map message_data (sample_transcript 2)));
                     "history_Es.json" :=
                       Json (JList (map message_data (sample_transcript 4))) ]};
                locked := ∅ |};
     state := {| selected_label_key := Some (display_name Italian);
                 chat_session :=
                   Some (Some {| model := initialize_model (display_name Italian);
                                 history := sample_transcript 2 |});
                 current_lang_code := Some "It";
                 is_initialized := Some true |};
     screen := []; console := []; sent := [] |}.

(** A live Italian session whose file cannot be written, with the flag as
    given. *)
Definition locked_machine (h : list Content) (flag : bool) : machine :=
  {| disk := {| files := ∅; locked := {[ "history_It.json" ]} |};
     state := {| selected_label_key := Some (display_name Italian);
                 chat_session :=
                   Some (Some {| model := initialize_model (display_name Italian);
                                 history := h |});
                 current_lang_code := Some "It";
                 is_initialized := Some flag |};
     screen := []; console := []; sent := [] |}.

(** A session bound to Spanish, beside an Italian file with the given
    content. *)
Definition spanish_machine_with (content : file_content) : machine :=
  {| disk := {| files := {[ "history_It.json" := content ]}; locked := ∅ |};
     state := {| selected_label_key := Some (display_name Spanish);
                 chat_session :=
                   Some (Some {| model := initialize_model (display_name Spanish);
                                 history := sample_transcript 6 |});
                 current_lang_code := Some "Es";
                 is_initialized := Some true |};
     screen := []; console := []; sent := [] |}.

(** A message with no part. *)
Definition empty_message : Content := {| role := "model"; parts := [] |}.


(** The word typed with a capital, after a no-break space (U+00A0) and
    before an ideographic space (U+3000), in UTF-8. *)
Definition padded_delete : string :=
  String (ascii_of_nat 194) (String (ascii_of_nat 160) "Delete")
  +:+ String (ascii_of_nat 227)
        (String (ascii_of_nat 128) (String (ascii_of_nat 128) "")).

(** ** Sections 4 to 6 of the script *)

Section Script.

(** The client's conversion of a seed history ([start_chat(history=...)]):
    the contents the new session holds, or the exception it raises. *)
Variable to_contents : json -> exn + list Content.

(** Python's [str(x)] on a parsed value, as an f-string applies it. *)
Variable py_str : json -> string.

(** *** The sidebar *)

(** The safety switch: [clear_current_history] runs only behind the button
    and the typed word. *)
Definition clear_history_switch (inp : inputs) : Script unit :=
  let lang_code := LANG_OPTIONS (selected inp) in
  draw (st_expander "🗑️ Clear History");;;
  draw (st_warning "This action cannot be undone!");;;
  if confirm_delete inp then
    if String.eqb (lower (strip (confirm_text inp))) "delete"
    then clear_current_history lang_code
    else draw (st_error "Please type 'delete'.")
  else ret tt.

(** The label of the export expander. *)
Definition export_expander_label : string := "🚀 Export to Gemini Web".

(** One pass of the export loop: the line of one message. *)
Definition export_line (msg : json) : exn + string :=
  let+ msg_role := py_get msg "role" JNull in
  let r := if is_str msg_role "model" then "Model" else "Student" in
  let+ msg_parts := py_get msg "parts" (JList [JDict []]) in
  let+ first := py_first msg_parts in
  let+ txt := py_get first "text" (JStr "") in
  inr (r +:+ ": " +:+ py_str txt +:+ LF).

(** The loop: [export_text += line] for each message in turn. *)
Fixpoint export_lines (msgs : list json) (export_text : string) : exn + string :=
  match msgs with
  | [] => inr export_text
  | msg :: rest =>
      let+ line := export_line msg in
      export_lines rest (export_text +:+ line)
  end.

Definition export_text (selected_label : string) (full_disk_history : json)
  : exn + string :=
  let text :=
    "SYSTEM INSTRUCTION:" +:+ LF +:+ export_system_instruction selected_label
    +:+ LF +:+ LF +:+ "CHAT HISTORY:" +:+ LF in
  let+ msgs := py_iter full_disk_history in
  let+ text := export_lines msgs text in
  inr (text +:+ LF +:+ LF +:+ "(Please continue from here)").

Definition export_to_web (inp : inputs) : Script unit :=
  let selected_label := display_name (selected inp) in
  let lang_code := LANG_OPTIONS (selected inp) in
  draw (st_expander export_expander_label);;;
  draw (st_info "If API quota is exceeded, copy this text to https://gemini.google.com to continue.");;;
  let* full_disk_history := load_history_safe lang_code in
  let* text := lift (export_text selected_label full_disk_history) in
  draw (st_code text).

Definition sidebar (inp : inputs) : Script unit :=
  let selected_label := display_name (selected inp) in
  draw (st_header "⚙️ Control Panel");;;
  set_selected_label_key selected_label;;;
  draw (st_caption ("Model: `" +:+ MODEL_NAME +:+ "`"));;;
  draw (st_caption ("Memory: Last " +:+ pretty MAX_HISTORY_LENGTH +:+ " messages"));;;
  clear_history_switch inp;;;
  export_to_web inp;;;
  if refresh inp then st_rerun else ret tt.

(** [if "selected_label_key" not in st.session_state: ...]: the first key. *)
Definition default_selection : Script unit :=
  let* s := get_state in
  match selected_label_key s with
  | None => set_selected_label_key (display_name Italian)
  | Some _ => ret tt
  end.

(** *** Section 5: the session block *)

(** [model.start_chat(history=h)]. *)
Definition start_chat (mdl : GenerativeModel) (h : json) : Script ChatSession :=
  match to_contents h with
  | inr contents => ret {| model := mdl; history := contents |}
  | inl e => raise e
  end.

Definition session_block (inp : inputs) : Script unit :=
  let selected_label := display_name (selected inp) in
  let lang_code := LANG_OPTIONS (selected inp) in
  let* s := get_state in
  if bool_decide (chat_session s = None)
     || negb (bool_decide (current_lang_code s = Some lang_code))
  then
    let mdl := initialize_model selected_label in
    let* past_history := load_history_safe lang_code in
    let* recent_history := lift (recent_history_of past_history) in
    let* session :=
      try_except (start_chat mdl recent_history)
                 (fun _ => start_chat mdl (JList [])) in
    set_chat_session (Some session);;;
    set_current_lang_code lang_code;;;
    let* n := lift (py_len past_history) in
    set_is_initialized (0 <? n)%nat
  else ret tt.

(** *** Section 6: the chat interface *)

Definition render_message (message : Content) : Script unit :=
  let who := if String.eqb (role message) "user" then "user" else "assistant" in
  match parts message with
  | [] => raise (Exn IndexError "list index out of range")
  | TextPart text :: _ => draw (st_chat_markdown who text)
  | RawPart _ :: _ => raise (Exn AttributeError "object has no attribute 'text'")
  end.

Fixpoint render_messages (messages : list Content) : Script unit :=
  match messages with
  | [] => ret tt
  | message :: rest => render_message message;;; render_messages rest
  end.

Definition chat_interface (inp : inputs) : Script unit :=
  let selected_label := display_name (selected inp) in
  draw (st_title "🌍 ProGlot AI");;;
  draw (st_subheader (selected_label +:+ " Tutor"));;;
  let* s := get_state in
  match chat_session s with
  | None => no_such_key "chat_session"
  | Some None => ret tt
  | Some (Some session) => render_messages (history session)
  end.

(** [st.session_state.chat_session.send_message(text)], with what the service
    does this time. The call is recorded; when it returns, the session's
    history has grown by the content sent and the content received, and the
    script holds the response. *)
Definition send_message (site : call_site) (reply : gateway) (text : string)
  : Script Response :=
  let* s := get_state in
  match chat_session s with
  | None => no_such_key "chat_session"
  | Some None =>
      raise (Exn AttributeError "'NoneType' object has no attribute 'send_message'")
  | Some (Some session) =>
      (fun m => (inr tt,
                 {| disk := disk m; state := state m; screen := screen m;
                    console := console m; sent := sent m ++ [(site, text)] |}));;;
      match reply with
      | Raises e => raise e
      | Replies answer =>
          set_chat_session
            (Some {| model := model session;
                     history := history session
                                ++ [sent_content text; received_content answer] |});;;
          ret {| response_text := inr answer |}
      | RepliesWithoutText received e =>
          set_chat_session
            (Some {| model := model session;
                     history := history session ++ [sent_content text; received] |});;;
          ret {| response_text := inl e |}
      end
  end.

(** [st.session_state.chat_session.history]. *)
Definition session_history : Script (list Content) :=
  let* s := get_state in
  match chat_session s with
  | None => no_such_key "chat_session"
  | Some None => raise (Exn AttributeError "'NoneType' object has no attribute 'history'")
  | Some (Some session) => ret (history session)
  end.

Definition cold_start_prompt (selected_label : string) : string :=
  "Start the lesson. Introduce yourself professionally in Turkish and ask for my "
  +:+ selected_label +:+ " proficiency level.".

Definition cold_start (inp : inputs) : Script unit :=
  let selected_label := display_name (selected inp) in
  let lang_code := LANG_OPTIONS (selected inp) in
  let* s := get_state in
  match is_initialized s with
  | None => no_such_key "is_initialized"
  | Some true => ret tt
  | Some false =>
      try_except
        (let* response :=
           send_message ColdStart (cold_start_reply inp)
                        (cold_start_prompt selected_label) in
         let* text := lift (response_text response) in
         draw (st_chat_markdown "assistant" text);;;
         set_is_initialized true;;;
         let* h := session_history in
         save_history_safe h lang_code)
        (fun e => draw (st_error ("Initialization Error: " +:+ exn_text e)))
  end.

Definition user_input_handling (inp : inputs) : Script unit :=
  let lang_code := LANG_OPTIONS (selected inp) in
  match user_input inp with
  | None | Some EmptyString => ret tt
  | Some text =>
      draw (st_chat_markdown "user" text);;;
      try_except
        (let* response := send_message UserTurn (user_turn_reply inp) text in
         let* answer := lift (response_text response) in
         draw (st_chat_markdown "assistant" answer);;;
         let* h := session_history in
         save_history_safe h lang_code)
        (fun e =>
           match exn_kind e with
           | ServiceUnavailable =>
               draw (st_error "⚠️ Service Unavailable: Google servers are temporarily down.")
           | ResourceExhausted =>
               draw (st_error "⚠️ API Quota Exceeded. Please use the 'Export to Gemini Web' feature in the sidebar.")
           | _ => draw (st_error ("An error occurred: " +:+ exn_text e))
           end)
  end.

(** One run of the script, top to bottom. *)
Definition app (inp : inputs) : Script unit :=
  default_selection;;;
  sidebar inp;;;
  session_block inp;;;
  chat_interface inp;;;
  cold_start inp;;;
  user_input_handling inp.


(** * Properties *)

(** The primitives unfold when a block is run on a machine. *)
Arguments ret {A} a m /.
Arguments bind {A B} c k m /.
Arguments raise {A} e m /.
Arguments try_except {A} body handler m /.
Arguments lift {A} !r /.
Arguments and_then {A B} !r k /.
Arguments draw e m /.
Arguments print line m /.
Arguments st_rerun {A} m /.
Arguments get_state m /.
Arguments put_state s m /.
Arguments set_selected_label_key v m /.
Arguments set_chat_session v m /.
Arguments set_current_lang_code v m /.
Arguments set_is_initialized v m /.
Arguments no_such_key {A} key m /.
Arguments with_disk d m /.
Arguments with_state s m /.

(** The file functions and the pure ones are run through their lemmas. *)
Arguments get_history_filename : simpl never.
Arguments LANG_OPTIONS : simpl never.
Arguments display_name : simpl never.
Arguments load_history_safe : simpl never.
Arguments save_history_safe : simpl never.
Arguments recent_history_of : simpl never.
Arguments export_text : simpl never.
Arguments clear_current_history : simpl never.
Arguments clear_history_switch : simpl never.
Arguments export_to_web : simpl never.
Arguments sidebar : simpl never.
Arguments default_selection : simpl never.
Arguments session_block : simpl never.
Arguments chat_interface : simpl never.
Arguments cold_start : simpl never.
Arguments user_input_handling : simpl never.


(** ** Running blocks *)

Lemma bind_returned {A B : Type} (c : Script A) (k : A -> Script B) m a m' :
  c m = (inr a, m') -> bind c k m = k a m'.
Proof. intros H. unfold bind. now rewrite H. Qed.

Lemma bind_signalled {A B : Type} (c : Script A) (k : A -> Script B) m s m' :
  c m = (inl s, m') -> bind c k m = (inl s, m').
Proof. intros H. unfold bind. now rewrite H. Qed.

Lemma try_except_returned {A : Type} (body : Script A) handler m a m' :
  body m = (inr a, m') -> try_except body handler m = (inr a, m').
Proof. intros H. unfold try_except. now rewrite H. Qed.

Lemma try_except_caught {A : Type} (body : Script A) handler m e m' :
  body m = (inl (Uncaught e), m') -> try_except body handler m = handler e m'.
Proof. intros H. unfold try_except. now rewrite H. Qed.

Lemma os_path_exists_run path m :
  os_path_exists path m = (inr (bool_decide (is_Some (files (disk m) !! path))), m).
Proof. reflexivity. Qed.

Lemma write_json_unlocked path data m :
  path ∉ locked (disk m) ->
  write_json path data m =
    (inr tt, with_disk {| files := <[path := Json data]> (files (disk m));
                          locked := locked (disk m) |} m).
Proof. intros H. unfold write_json. now rewrite bool_decide_eq_false_2. Qed.

Lemma write_json_locked path data m :
  path ∈ locked (disk m) ->
  write_json path data m = (inl (Uncaught (os_error path)), m).
Proof. intros H. unfold write_json. now rewrite bool_decide_eq_true_2. Qed.

(** ** The history files *)

Lemma save_history_safe_unlocked history lang_code m :
  get_history_filename lang_code ∉ locked (disk m) ->
  save_history_safe history lang_code m =
    (inr tt,
     with_disk {| files := <[get_history_filename lang_code :=
                               Json (JList (map message_data history))]>
                             (files (disk m));
                  locked := locked (disk m) |} m).
Proof.
  intros H. unfold save_history_safe.
  erewrite try_except_returned; [reflexivity |].
  now apply write_json_unlocked.
Qed.

Lemma save_history_safe_locked history lang_code m :
  get_history_filename lang_code ∈ locked (disk m) ->
  exists line,
    save_history_safe history lang_code m =
      (inr tt,
       {| disk := disk m; state := state m; screen := screen m;
          console := console m ++ [line]; sent := sent m |}).
Proof.
  intros H. eexists. unfold save_history_safe.
  erewrite try_except_caught by (now apply write_json_locked).
  reflexivity.
Qed.

Lemma load_history_safe_absent lang_code m :
  files (disk m) !! get_history_filename lang_code = None ->
  load_history_safe lang_code m = (inr (JList []), m).
Proof.
  intros H. unfold load_history_safe, bind. rewrite os_path_exists_run, H.
  reflexivity.
Qed.

Lemma load_history_safe_json lang_code v m :
  files (disk m) !! get_history_filename lang_code = Some (Json v) ->
  get_history_filename lang_code ∉ locked (disk m) ->
  load_history_safe lang_code m = (inr v, m).
Proof.
  intros H L. unfold load_history_safe, bind. rewrite os_path_exists_run, H.
  cbn. unfold try_except, read_json.
  rewrite bool_decide_eq_false_2 by done. now rewrite H.
Qed.

Lemma load_history_safe_garbage lang_code raw m :
  files (disk m) !! get_history_filename lang_code = Some (Garbage raw) ->
  get_history_filename lang_code ∉ locked (disk m) ->
  load_history_safe lang_code m = (inr (JList []), m).
Proof.
  intros H L. unfold load_history_safe, bind. rewrite os_path_exists_run, H.
  cbn. unfold try_except, read_json.
  rewrite bool_decide_eq_false_2 by done. now rewrite H.
Qed.

Lemma load_history_safe_unreadable lang_code raw e m :
  files (disk m) !! get_history_filename lang_code = Some (Unreadable raw e) ->
  get_history_filename lang_code ∉ locked (disk m) ->
  load_history_safe lang_code m =
    (inr (JList []),
     if exn_class_eqb (exn_kind e) JSONDecodeError then m
     else {| disk := disk m; state := state m;
             screen := screen m ++ [st_error ("File read error: " +:+ exn_text e)];
             console := console m; sent := sent m |}).
Proof.
  intros H L. unfold load_history_safe, bind. rewrite os_path_exists_run, H.
  cbn. unfold try_except, read_json.
  rewrite bool_decide_eq_false_2 by done. rewrite H.
  now destruct (exn_class_eqb (exn_kind e) JSONDecodeError).
Qed.

Lemma load_history_safe_locked lang_code m :
  is_Some (files (disk m) !! get_history_filename lang_code) ->
  get_history_filename lang_code ∈ locked (disk m) ->
  load_history_safe lang_code m =
    (inr (JList []),
     {| disk := disk m; state := state m;
        screen := screen m
                  ++ [st_error ("File read error: "
                                +:+ exn_text (os_error (get_history_filename lang_code)))];
        console := console m; sent := sent m |}).
Proof.
  intros [c H] L. unfold load_history_safe, bind. rewrite os_path_exists_run, H.
  cbn. unfold try_except, read_json.
  rewrite bool_decide_eq_true_2 by done. reflexivity.
Qed.

Lemma parts_of_data_part_data (ps : list Part) :
  Forall (fun part => exists t, part = TextPart t) ps ->
  mapM part_of_data (map part_data ps) = Some ps.
Proof.
  induction 1 as [|p ps [t ->] _ IH]; [reflexivity |].
  cbn. cbn in IH. now rewrite IH.
Qed.

Lemma transcript_of_data_message_data (T : list Content) :
  text_only T -> transcript_of_data (JList (map message_data T)) = Some T.
Proof.
  unfold transcript_of_data.
  induction 1 as [|message T Hm _ IH]; [reflexivity |].
  cbn. cbn in IH. rewrite (parts_of_data_part_data _ Hm). cbn.
  rewrite IH. now destruct message.
Qed.

Lemma parts_of_data_stored (ps : list Part) :
  mapM part_of_data (map part_data ps)
  = Some (map (fun part => TextPart (part_text part)) ps).
Proof.
  induction ps as [|p ps IH]; [reflexivity |].
  cbn. cbn in IH. rewrite IH. now destruct p.
Qed.

(** What was saved reads back as the messages with their roles and the
    texts of their parts. *)
Lemma transcript_of_data_stored (T : list Content) :
  transcript_of_data (JList (map message_data T)) = Some (map as_stored T).
Proof.
  unfold transcript_of_data.
  induction T as [|message T IH]; [reflexivity |].
  cbn. cbn in IH. rewrite parts_of_data_stored. cbn. now rewrite IH.
Qed.

Lemma as_stored_text_only (T : list Content) :
  text_only T -> map as_stored T = T.
Proof.
  induction 1 as [|message T Hm _ IH]; [reflexivity |].
  cbn. rewrite IH. f_equal. destruct message as [r ps]. unfold as_stored. cbn.
  f_equal. cbn in Hm. induction Hm as [|p ps [t ->] _ IHp]; [reflexivity |].
  cbn. now rewrite IHp.
Qed.

Lemma slice_last_split {A : Type} (n : nat) (l : list A) :
  (0 < n < length l)%nat ->
  l = (take (length l - n) l ++ slice_last n l)%list /\ length (slice_last n l) = n.
Proof.
  intros [Hn Hl]. destruct n as [|n]; [lia |]. unfold slice_last. split.
  - now rewrite take_drop.
  - rewrite length_drop. lia.
Qed.

(** C2. The window is a function of the transcript alone: a transcript of
    at most [MAX_HISTORY_LENGTH] = 20 messages is its own window, and a
    longer one has as window its last 20 messages, in their order. *)
Theorem sliding_window_last_messages (T : list json) :
  MAX_HISTORY_LENGTH = 20%nat
  /\ ((length T <= MAX_HISTORY_LENGTH)%nat ->
      recent_history_of (JList T) = inr (JList T))
  /\ ((MAX_HISTORY_LENGTH < length T)%nat ->
      exists older recent,
        T = (older ++ recent)%list
        /\ length recent = MAX_HISTORY_LENGTH
        /\ recent_history_of (JList T) = inr (JList recent)).
Proof.
  split; [reflexivity |]. unfold recent_history_of. cbn [py_len and_then].
  split; intros H.
  - apply Nat.ltb_ge in H. now rewrite H.
  - pose proof H as H'. apply Nat.ltb_lt in H'. rewrite H'.
    destruct (slice_last_split MAX_HISTORY_LENGTH T) as [E L];
      [unfold MAX_HISTORY_LENGTH in *; lia |].
    exists (take (length T - MAX_HISTORY_LENGTH) T), (slice_last MAX_HISTORY_LENGTH T).
    now repeat split.
Qed.

(** C3. Saving a transcript of text parts and loading it back returns the
    stored list of [{role, parts: [{text}]}] objects, which reads back as the
    very transcript: nothing of a role or a text is lost. *)
Theorem load_after_save_roundtrip (T : list Content) (lang_code : string) (m : machine) :
  text_only T ->
  get_history_filename lang_code ∉ locked (disk m) ->
  exists v m',
    load_history_safe lang_code (save_history_safe T lang_code m).2 = (inr v, m')
    /\ v = JList (map message_data T)
    /\ transcript_of_data v = Some T.
Proof.
  intros HT HL. rewrite save_history_safe_unlocked by assumption.
  eexists _, _. split; [apply load_history_safe_json |].
  - cbn. apply lookup_insert_eq.
  - assumption.
  - split; [reflexivity |]. now apply transcript_of_data_message_data.
Qed.

(** C4. [load_history_safe] never raises: it returns the stored value when
    the file holds valid JSON, and the empty list when there is no file,
    when the file's text is no JSON, when reading it raises anything else,
    or when the file cannot be opened; the files are as they were. *)
Theorem load_history_safe_never_raises (lang_code : string) (m : machine) :
  exists v m',
    load_history_safe lang_code m = (inr v, m')
    /\ disk m' = disk m
    /\ (files (disk m) !! get_history_filename lang_code = None -> v = JList [])
    /\ (forall raw,
          files (disk m) !! get_history_filename lang_code = Some (Garbage raw) ->
          v = JList [])
    /\ (get_history_filename lang_code ∈ locked (disk m) -> v = JList [])
    /\ (forall stored,
          files (disk m) !! get_history_filename lang_code = Some (Json stored) ->
          get_history_filename lang_code ∉ locked (disk m) ->
          v = stored)
    /\ (forall raw e,
          files (disk m) !! get_history_filename lang_code
            = Some (Unreadable raw e) ->
          v = JList []).
Proof.
  destruct (files (disk m) !! get_history_filename lang_code) as [c|] eqn:F.
  - destruct (decide (get_history_filename lang_code ∈ locked (disk m))) as [L|L].
    + eexists _, _. split; [apply load_history_safe_locked; eauto |].
      repeat split; done.
    + destruct c as [v|raw|raw e].
      * exists v, m. split; [apply load_history_safe_json; assumption |].
        repeat split; try done; congruence.
      * eexists _, m. split; [eapply load_history_safe_garbage; eassumption |].
        repeat split; try done.
      * eexists _, _. split; [eapply load_history_safe_unreadable; eassumption |].
        repeat split; try done.
        now destruct (exn_class_eqb (exn_kind e) JSONDecodeError).
  - eexists _, m. split; [apply load_history_safe_absent; assumption |].
    repeat split; try done.
Qed.

(** ** The clear-history switch *)

Lemma clear_history_switch_refused (inp : inputs) (m : machine) :
  String.eqb (lower (strip (confirm_text inp))) "delete" = false ->
  exists shown,
    clear_history_switch inp m =
      (inr tt,
       {| disk := disk m; state := state m; screen := (screen m ++ shown)%list;
          console := console m; sent := sent m |}).
Proof.
  intros H. unfold clear_history_switch. rewrite H.
  destruct (confirm_delete inp); eexists; cbn; rewrite <- ?app_assoc; reflexivity.
Qed.

Lemma clear_history_switch_idle (inp : inputs) (m : machine) :
  confirm_delete inp = false ->
  clear_history_switch inp m =
    (inr tt,
     {| disk := disk m; state := state m;
        screen := (screen m ++ [st_expander "🗑️ Clear History";
                                st_warning "This action cannot be undone!"])%list;
        console := console m; sent := sent m |}).
Proof.
  intros H. unfold clear_history_switch. rewrite H. cbn.
  now rewrite <- app_assoc.
Qed.

(** What [clear_current_history] leaves when the file can be removed. *)
Lemma clear_current_history_unlocked (lang_code : string) (m : machine) :
  get_history_filename lang_code ∉ locked (disk m) ->
  clear_current_history lang_code m =
    (inl Rerun,
     {| disk := {| files := delete (get_history_filename lang_code) (files (disk m));
                   locked := locked (disk m) |};
        state := {| selected_label_key := selected_label_key (state m);
                    chat_session := Some None;
                    current_lang_code := current_lang_code (state m);
                    is_initialized := is_initialized (state m) |};
        screen := screen m; console := console m; sent := sent m |}).
Proof.
  intros L. unfold clear_current_history. cbn. unfold os_path_exists, os_remove.
  destruct (files (disk m) !! get_history_filename lang_code) as [c|] eqn:F; cbn.
  - rewrite bool_decide_eq_false_2 by assumption. rewrite F. reflexivity.
  - rewrite (delete_id _ _ F). now destruct m as [[? ?] ? ? ? ?].
Qed.

(** What it leaves when the file cannot be removed. *)
Lemma clear_current_history_locked (lang_code : string) (m : machine) :
  get_history_filename lang_code ∈ locked (disk m) ->
  clear_current_history lang_code m =
    (inl Rerun,
     {| disk := disk m;
        state := {| selected_label_key := selected_label_key (state m);
                    chat_session := Some None;
                    current_lang_code := current_lang_code (state m);
                    is_initialized := is_initialized (state m) |};
        screen := screen m; console := console m; sent := sent m |}).
Proof.
  intros L. unfold clear_current_history. cbn. unfold os_path_exists, os_remove.
  destruct (files (disk m) !! get_history_filename lang_code) as [c|] eqn:F; cbn.
  - rewrite bool_decide_eq_true_2 by assumption. reflexivity.
  - reflexivity.
Qed.

(** C7. The confirmation is read with its surrounding white space stripped
    and its letters lowered. With a text that, so read, is not [delete], the
    clear-history switch deletes nothing and leaves the session state as it
    was; the files change only when the button was pressed with a text that,
    so read, is [delete]; and pressed with such a text the switch removes
    the language's file, drops the session and asks for a rerun. *)
Theorem clear_history_needs_confirmation (inp : inputs) (m : machine) :
  (String.eqb (lower (strip (confirm_text inp))) "delete" = false ->
   (clear_history_switch inp m).1 = inr tt
   /\ disk (clear_history_switch inp m).2 = disk m
   /\ state (clear_history_switch inp m).2 = state m)
  /\ (disk (clear_history_switch inp m).2 <> disk m ->
      confirm_delete inp = true
      /\ String.eqb (lower (strip (confirm_text inp))) "delete" = true)
  /\ lower (strip "delete") = "delete"
  /\ (confirm_delete inp = true ->
      String.eqb (lower (strip (confirm_text inp))) "delete" = true ->
      get_history_filename (LANG_OPTIONS (selected inp)) ∉ locked (disk m) ->
      (clear_history_switch inp m).1 = inl Rerun
      /\ files (disk (clear_history_switch inp m).2)
           !! get_history_filename (LANG_OPTIONS (selected inp)) = None
      /\ chat_session (state (clear_history_switch inp m).2) = Some None).
Proof.
  split; [| split; [| split; [reflexivity |]]].
  - intros H. destruct (clear_history_switch_refused inp m H) as [shown ->].
    now cbn.
  - intros D.
    destruct (String.eqb (lower (strip (confirm_text inp))) "delete") eqn:E.
    + destruct (confirm_delete inp) eqn:B; [done |].
      rewrite (clear_history_switch_idle inp m B) in D. now cbn in D.
    + destruct (clear_history_switch_refused inp m E) as [shown Hrun].
      rewrite Hrun in D. now cbn in D.
  - intros Hc Hw Hlock. unfold clear_history_switch. cbn. rewrite Hc, Hw.
    rewrite clear_current_history_unlocked by (cbn; exact Hlock). cbn.
    repeat split. apply lookup_delete_eq.
Qed.

(** ** Strings *)



(** ** The export text *)





(** ** The session block *)

Lemma recent_history_of_sized (past recent : json) :
  recent_history_of past = inr recent -> exists n, py_len past = inr n.
Proof.
  unfold recent_history_of. destruct (py_len past) as [e|n]; [done | eauto].
Qed.

Lemma needs_session_test (inp : inputs) (m : machine) :
  needs_session inp m ->
  bool_decide (chat_session (state m) = None)
  || negb (bool_decide (current_lang_code (state m)
                        = Some (LANG_OPTIONS (selected inp)))) = true.
Proof.
  intros [H|H].
  - now rewrite bool_decide_eq_true_2.
  - rewrite (bool_decide_eq_false_2 _ H). apply orb_true_r.
Qed.

(** What the block leaves when the client takes the seed: the session
    holds the converted window, the flag says whether the stored value is
    non-empty. *)
Lemma session_block_seeded
  (inp : inputs) (m m1 : machine) (past recent : json) (n : nat)
  (contents : list Content) :
  needs_session inp m ->
  load_history_safe (LANG_OPTIONS (selected inp)) m = (inr past, m1) ->
  recent_history_of past = inr recent ->
  py_len past = inr n ->
  to_contents recent = inr contents ->
  session_block inp m =
    (inr tt,
     with_state
       {| selected_label_key := selected_label_key (state m1);
          chat_session :=
            Some (Some {| model := initialize_model (display_name (selected inp));
                          history := contents |});
          current_lang_code := Some (LANG_OPTIONS (selected inp));
          is_initialized := Some (0 <? n)%nat |}
       m1).
Proof.
  intros Hneed Hload Hrecent Hlen Hseed. unfold session_block. cbn.
  rewrite (needs_session_test _ _ Hneed). cbn. rewrite Hload. cbn.
  rewrite Hrecent. cbn. unfold start_chat. rewrite Hseed. cbn.
  rewrite Hlen. now cbn.
Qed.

(** What it leaves when the client refuses the seed: the empty session, and
    the same flag. *)
Lemma session_block_fallback
  (inp : inputs) (m m1 : machine) (past recent : json) (n : nat) (e : exn) :
  needs_session inp m ->
  load_history_safe (LANG_OPTIONS (selected inp)) m = (inr past, m1) ->
  recent_history_of past = inr recent ->
  py_len past = inr n ->
  to_contents recent = inl e ->
  to_contents (JList []) = inr [] ->
  session_block inp m =
    (inr tt,
     with_state
       {| selected_label_key := selected_label_key (state m1);
          chat_session :=
            Some (Some {| model := initialize_model (display_name (selected inp));
                          history := [] |});
          current_lang_code := Some (LANG_OPTIONS (selected inp));
          is_initialized := Some (0 <? n)%nat |}
       m1).
Proof.
  intros Hneed Hload Hrecent Hlen Hfail Hnil. unfold session_block. cbn.
  rewrite (needs_session_test _ _ Hneed). cbn. rewrite Hload. cbn.
  rewrite Hrecent. cbn. unfold start_chat. rewrite Hfail. cbn.
  rewrite Hnil. cbn. rewrite Hlen. now cbn.
Qed.

Lemma session_block_kept (inp : inputs) (m : machine) (kept : option ChatSession) :
  chat_session (state m) = Some kept ->
  current_lang_code (state m) = Some (LANG_OPTIONS (selected inp)) ->
  session_block inp m = (inr tt, m).
Proof.
  intros Hs Hl. unfold session_block. cbn. rewrite Hs.
  rewrite bool_decide_eq_false_2 by done.
  now rewrite bool_decide_eq_true_2.
Qed.

(** ** The cold start *)

Lemma cold_start_skipped (inp : inputs) (m : machine) :
  is_initialized (state m) = Some true -> cold_start inp m = (inr tt, m).
Proof. intros H. unfold cold_start. cbn. now rewrite H. Qed.

(** C8. When the client refuses the windowed seed, for whatever reason, the
    session block does not fail: it ends normally with a session of empty
    history, bound to the selected language. *)
Theorem start_chat_falls_back_to_empty
  (inp : inputs) (m m1 : machine) (past recent : json) (e : exn) :
  needs_session inp m ->
  load_history_safe (LANG_OPTIONS (selected inp)) m = (inr past, m1) ->
  recent_history_of past = inr recent ->
  to_contents recent = inl e ->
  to_contents (JList []) = inr [] ->
  exists m',
    session_block inp m = (inr tt, m')
    /\ chat_session (state m')
       = Some (Some {| model := initialize_model (display_name (selected inp));
                       history := [] |})
    /\ current_lang_code (state m') = Some (LANG_OPTIONS (selected inp)).
Proof.
  intros Hneed Hload Hrecent Hfail Hnil.
  destruct (recent_history_of_sized _ _ Hrecent) as [n Hlen].
  eexists. split; [eapply session_block_fallback; eassumption |].
  now cbn.
Qed.

(** C10. The flag comes from the length of the whole stored transcript,
    whether or not the seed was taken: after the session block
    [is_initialized] says whether the transcript on disk is non-empty; so
    with a non-empty transcript and a refused seed the session starts with
    an empty history and yet [is_initialized] is true, and the cold start
    sends nothing. *)
Theorem flag_follows_disk_not_seed
  (inp : inputs) (m : machine) (items : list json) (recent : json) :
  needs_session inp m ->
  files (disk m) !! get_history_filename (LANG_OPTIONS (selected inp))
    = Some (Json (JList items)) ->
  get_history_filename (LANG_OPTIONS (selected inp)) ∉ locked (disk m) ->
  recent_history_of (JList items) = inr recent ->
  to_contents (JList []) = inr [] ->
  exists m',
    session_block inp m = (inr tt, m')
    /\ is_initialized (state m') = Some (0 <? length items)%nat
    /\ (forall e,
          to_contents recent = inl e ->
          items <> [] ->
          (exists mdl,
              chat_session (state m')
              = Some (Some {| model := mdl; history := [] |}))
          /\ is_initialized (state m') = Some true
          /\ cold_start inp m' = (inr tt, m')
          /\ sent m' = sent m).
Proof.
  intros Hneed Hfile Hlock Hrecent Hnil.
  pose proof (load_history_safe_json _ _ _ Hfile Hlock) as Hload.
  destruct (to_contents recent) as [e|contents] eqn:Hseed.
  - eexists. split; [| split].
    + eapply session_block_fallback; try eassumption. reflexivity.
    + reflexivity.
    + intros e' _ Hitems. destruct items as [|item items]; [done |].
      cbn. repeat split; eauto.
  - eexists. split; [| split].
    + eapply session_block_seeded; try eassumption. reflexivity.
    + reflexivity.
    + intros e' He'. discriminate He'.
Qed.

(** ** The user turn *)

(** A turn the service answers: both bubbles are drawn, the call is
    recorded, the session's history grows by the exchange, and that whole
    history is written to the language's file. *)
Lemma user_turn_replied
  (inp : inputs) (m : machine) (session : ChatSession) (text answer : string) :
  user_input inp = Some text ->
  text <> "" ->
  user_turn_reply inp = Replies answer ->
  chat_session (state m) = Some (Some session) ->
  get_history_filename (LANG_OPTIONS (selected inp)) ∉ locked (disk m) ->
  user_input_handling inp m =
    (inr tt,
     {| disk :=
          {| files :=
               <[get_history_filename (LANG_OPTIONS (selected inp)) :=
                   Json (JList (map message_data
                                  (history session
                                   ++ [sent_content text; received_content answer])))]>
                 (files (disk m));
             locked := locked (disk m) |};
        state :=
          {| selected_label_key := selected_label_key (state m);
             chat_session :=
               Some (Some {| model := model session;
                             history := history session
                                        ++ [sent_content text;
                                            received_content answer] |});
             current_lang_code := current_lang_code (state m);
             is_initialized := is_initialized (state m) |};
        screen := screen m ++ [st_chat_markdown "user" text;
                               st_chat_markdown "assistant" answer];
        console := console m;
        sent := sent m ++ [(UserTurn, text)] |}).
Proof.
  intros Hin Htext Hreply Hsess Hlock. unfold user_input_handling.
  rewrite Hin. destruct text as [|c text]; [done |].
  unfold send_message, session_history. cbn. rewrite Hsess. cbn.
  rewrite Hreply. cbn.
  rewrite save_history_safe_unlocked by (cbn; assumption). cbn.
  now rewrite <- app_assoc.
Qed.

(** A turn on which the service raises: the error is drawn, the call is
    recorded, and nothing else changes. *)
Lemma user_turn_raised
  (inp : inputs) (m : machine) (session : ChatSession) (text : string) (e : exn) :
  user_input inp = Some text ->
  text <> "" ->
  user_turn_reply inp = Raises e ->
  chat_session (state m) = Some (Some session) ->
  user_input_handling inp m =
    (inr tt,
     {| disk := disk m;
        state := state m;
        screen :=
          screen m
          ++ [st_chat_markdown "user" text;
              st_error
                match exn_kind e with
                | ServiceUnavailable =>
                    "⚠️ Service Unavailable: Google servers are temporarily down."
                | ResourceExhausted =>
                    "⚠️ API Quota Exceeded. Please use the 'Export to Gemini Web' feature in the sidebar."
                | _ => "An error occurred: " +:+ exn_text e
                end];
        console := console m;
        sent := sent m ++ [(UserTurn, text)] |}).
Proof.
  intros Hin Htext Hreply Hsess. unfold user_input_handling.
  rewrite Hin. destruct text as [|c text]; [done |].
  unfold send_message. cbn. rewrite Hsess. cbn. rewrite Hreply. cbn.
  destruct (exn_kind e); cbn; now rewrite <- app_assoc.
Qed.

Lemma slice_last_map {A B : Type} (f : A -> B) (n : nat) (l : list A) :
  slice_last n (map f l) = map f (slice_last n l).
Proof.
  destruct n as [|n]; [reflexivity |]. unfold slice_last.
  now rewrite length_map, <- fmap_drop.
Qed.

Lemma recent_history_of_long (items : list json) :
  (MAX_HISTORY_LENGTH < length items)%nat ->
  recent_history_of (JList items)
  = inr (JList (slice_last MAX_HISTORY_LENGTH items)).
Proof.
  intros H. unfold recent_history_of. cbn [py_len and_then].
  apply Nat.ltb_lt in H. now rewrite H.
Qed.

(** C1. A user turn that the service answers writes the session's whole
    updated history (what the session held, then the message sent and the
    answer) to the language's file, in place of what the file held: the
    record ends with the two new messages, each with its role and its
    text, it reads back as the session's history message by message (roles
    and texts), and it has two messages more than the session held. After
    a load that cut a longer transcript to its window, the file so written
    holds the window and the exchange only: the older messages are gone
    from disk, and the count is two more than the window, not two more
    than the transcript that was on disk. *)
Theorem user_turn_saves_session_history :
  (forall (inp : inputs) (m : machine) (session : ChatSession) (text answer : string),
      user_input inp = Some text ->
      text <> "" ->
      user_turn_reply inp = Replies answer ->
      chat_session (state m) = Some (Some session) ->
      get_history_filename (LANG_OPTIONS (selected inp)) ∉ locked (disk m) ->
      exists m' saved,
        user_input_handling inp m = (inr tt, m')
        /\ saved = (history session
                    ++ [sent_content text; received_content answer])%list
        /\ chat_session (state m')
           = Some (Some {| model := model session; history := saved |})
        /\ files (disk m') !! get_history_filename (LANG_OPTIONS (selected inp))
           = Some (Json (JList (map message_data saved)))
        /\ length saved = (length (history session) + 2)%nat
        /\ map message_data saved
           = (map message_data (history session)
              ++ [JDict [("role", JStr "user");
                         ("parts", JList [JDict [("text", JStr text)]])];
                  JDict [("role", JStr "model");
                         ("parts", JList [JDict [("text", JStr answer)]])]])%list
        /\ transcript_of_data (JList (map message_data saved))
           = Some (map as_stored saved)
        /\ (text_only (history session) -> map as_stored saved = saved))
  /\ (forall (inp inp' : inputs) (m : machine) (T : list Content) (text answer : string),
         needs_session inp m ->
         files (disk m) !! get_history_filename (LANG_OPTIONS (selected inp))
           = Some (Json (JList (map message_data T))) ->
         get_history_filename (LANG_OPTIONS (selected inp)) ∉ locked (disk m) ->
         (MAX_HISTORY_LENGTH < length T)%nat ->
         to_contents (JList (map message_data (slice_last MAX_HISTORY_LENGTH T)))
           = inr (slice_last MAX_HISTORY_LENGTH T) ->
         selected inp' = selected inp ->
         user_input inp' = Some text ->
         text <> "" ->
         user_turn_reply inp' = Replies answer ->
         exists m1 m2 saved,
           session_block inp m = (inr tt, m1)
           /\ user_input_handling inp' m1 = (inr tt, m2)
           /\ saved = (drop (length T - MAX_HISTORY_LENGTH) T
                       ++ [sent_content text; received_content answer])%list
           /\ files (disk m2) !! get_history_filename (LANG_OPTIONS (selected inp))
              = Some (Json (JList (map message_data saved)))
           /\ length saved = (MAX_HISTORY_LENGTH + 2)%nat
           /\ (length saved < length T + 2)%nat
           /\ transcript_of_data (JList (map message_data saved))
              = Some (map as_stored saved)
           /\ (text_only T -> map as_stored saved = saved)).
Proof.
  split.
  - intros inp m session text answer Hin Htext Hreply Hsess Hlock.
    eexists _, _. split; [eapply user_turn_replied; eassumption |].
    split; [reflexivity |]. cbn. split; [reflexivity |].
    split; [apply lookup_insert_eq |].
    split; [rewrite length_app; cbn; lia |].
    split; [now rewrite map_app |].
    split; [apply transcript_of_data_stored |].
    intros HT. apply as_stored_text_only. apply Forall_app. split; [exact HT |].
    repeat constructor; eauto.
  - intros inp inp' m T text answer Hneed Hfile Hlock Hlong Hseed Hsel Hin Htext Hreply.
    pose proof (load_history_safe_json _ _ _ Hfile Hlock) as Hload.
    assert (MAX_HISTORY_LENGTH < length (map message_data T))%nat as Hlong'
      by now rewrite length_map.
    pose proof (recent_history_of_long _ Hlong') as Hrecent.
    rewrite slice_last_map in Hrecent.
    eexists _, _, _. split; [| split].
    + eapply session_block_seeded; try eassumption. reflexivity.
    + apply user_turn_replied; try eassumption.
      * reflexivity.
      * cbn. now rewrite Hsel.
    + split; [reflexivity |]. cbn. rewrite Hsel. split; [apply lookup_insert_eq |].
      split; [| split; [| split]].
      * rewrite length_app, length_drop. cbn. unfold MAX_HISTORY_LENGTH in *. lia.
      * rewrite length_app, length_drop. cbn. unfold MAX_HISTORY_LENGTH in *. lia.
      * apply transcript_of_data_stored.
      * intros HT. apply as_stored_text_only. apply Forall_app.
        split; [now apply Forall_drop |]. repeat constructor; eauto.
Qed.

(** C6. When the service answers a user turn with quota exhaustion, the
    error drawn names the export feature of the sidebar, and the turn leaves
    the files as they were: nothing is saved, the session state is kept. *)
Theorem quota_error_names_export
  (inp : inputs) (m : machine) (session : ChatSession) (text detail : string) :
  user_input inp = Some text ->
  text <> "" ->
  user_turn_reply inp = Raises (Exn ResourceExhausted detail) ->
  chat_session (state m) = Some (Some session) ->
  exists m' message,
    user_input_handling inp m = (inr tt, m')
    /\ last (screen m') = Some (st_error message)
    /\ mentions message "Export to Gemini Web"
    /\ mentions export_expander_label "Export to Gemini Web"
    /\ disk m' = disk m
    /\ state m' = state m
    /\ console m' = console m.
Proof.
  intros Hin Htext Hreply Hsess.
  eexists _, _. split; [eapply user_turn_raised; eassumption |].
  cbn. split; [| split; [| split]].
  - apply last_Some. eexists (screen m ++ [_])%list. now rewrite <- app_assoc.
  - now exists "⚠️ API Quota Exceeded. Please use the '", "' feature in the sidebar.".
  - now exists "🚀 ", "".
  - done.
Qed.

(** ** One run of the script *)

Lemma drew_only_refl (m : machine) : drew_only m m.
Proof. now repeat split. Qed.

Lemma drew_only_trans (m1 m2 m3 : machine) :
  drew_only m1 m2 -> drew_only m2 m3 -> drew_only m1 m3.
Proof.
  intros (D1 & C1 & S1 & K1 & L1 & I1) (D2 & C2 & S2 & K2 & L2 & I2).
  repeat split; congruence.
Qed.

Lemma default_selection_run (m : machine) :
  exists m', default_selection m = (inr tt, m') /\ drew_only m m'.
Proof.
  unfold default_selection. cbn.
  destruct (selected_label_key (state m)); cbn; eexists; (split; [reflexivity |]);
    now repeat split.
Qed.

Lemma load_history_safe_drew_only (lang_code : string) (m : machine) :
  exists v m',
    load_history_safe lang_code m = (inr v, m') /\ drew_only m m'.
Proof.
  destruct (files (disk m) !! get_history_filename lang_code) as [c|] eqn:F.
  - destruct (decide (get_history_filename lang_code ∈ locked (disk m))) as [L|L].
    + eexists _, _. split; [apply load_history_safe_locked; eauto |].
      now repeat split.
    + destruct c as [v|raw|raw e].
      * exists v, m. split; [apply load_history_safe_json; assumption |].
        apply drew_only_refl.
      * eexists _, m. split; [eapply load_history_safe_garbage; eassumption |].
        apply drew_only_refl.
      * eexists _, _. split; [eapply load_history_safe_unreadable; eassumption |].
        destruct (exn_class_eqb (exn_kind e) JSONDecodeError);
          [apply drew_only_refl | now repeat split].
  - eexists _, m. split; [apply load_history_safe_absent; assumption |].
    apply drew_only_refl.
Qed.

(** The export block draws and does nothing else, whether it ends or
    raises on a stored value it cannot render. *)
Lemma export_to_web_drew_only (inp : inputs) (m : machine) :
  exists r m', export_to_web inp m = (r, m') /\ drew_only m m'.
Proof.
  unfold export_to_web. cbn.
  match goal with
  | |- context [load_history_safe ?l ?m0] =>
      destruct (load_history_safe_drew_only l m0) as (v & m1 & -> & D)
  end.
  cbn. destruct (export_text _ v) as [e|text]; cbn;
    eexists _, _; (split; [reflexivity |]);
    destruct D as (D1 & D2 & D3 & D4 & D5 & D6); now repeat split.
Qed.

Lemma export_text_empty (selected_label : string) :
  exists text, export_text selected_label (JList []) = inr text.
Proof. eexists. reflexivity. Qed.

Lemma export_to_web_fresh (inp : inputs) (m : machine) :
  files (disk m) !! get_history_filename (LANG_OPTIONS (selected inp)) = None ->
  exists m', export_to_web inp m = (inr tt, m') /\ drew_only m m'.
Proof.
  intros F. unfold export_to_web. cbn.
  rewrite load_history_safe_absent by (cbn; assumption). cbn.
  destruct (export_text_empty (display_name (selected inp))) as [text ->]. cbn.
  eexists. split; [reflexivity |]. now repeat split.
Qed.

(** [clear_current_history] always ends in [st.rerun()]; it sends nothing
    and keeps the flag and the bound language. *)
Lemma clear_current_history_reruns (lang_code : string) (m : machine) :
  exists m',
    clear_current_history lang_code m = (inl Rerun, m')
    /\ sent m' = sent m.
Proof.
  unfold clear_current_history. cbn. unfold os_path_exists, os_remove.
  destruct (files (disk m) !! get_history_filename lang_code) as [c|] eqn:F; cbn.
  - destruct (bool_decide (get_history_filename lang_code ∈ locked (disk m))); cbn;
      rewrite ?F; cbn; eexists; split; reflexivity.
  - eexists; split; reflexivity.
Qed.

Lemma sidebar_fresh (inp : inputs) (m : machine) :
  files (disk m) !! get_history_filename (LANG_OPTIONS (selected inp)) = None ->
  confirm_delete inp = false ->
  refresh inp = false ->
  exists m', sidebar inp m = (inr tt, m') /\ drew_only m m'.
Proof.
  intros F Hc Hr. unfold sidebar. cbn.
  rewrite clear_history_switch_idle by assumption.
  cbn.
  match goal with
  | |- context [export_to_web inp ?m0] =>
      destruct (export_to_web_fresh inp m0) as (m1 & -> & D); [exact F |]
  end.
  rewrite Hr. cbn. eexists. split; [reflexivity |].
  destruct D as (D1 & D2 & D3 & D4 & D5 & D6). now repeat split.
Qed.

(** Whatever the widgets say, the sidebar sends nothing; when it runs to
    its end it has only drawn. *)
Lemma sidebar_sends_nothing (inp : inputs) (m : machine) :
  exists r m',
    sidebar inp m = (r, m')
    /\ sent m' = sent m
    /\ (r = inr tt -> drew_only m m').
Proof.
  unfold sidebar, clear_history_switch. cbn.
  destruct (confirm_delete inp) eqn:Hc;
    [destruct (String.eqb (lower (strip (confirm_text inp))) "delete") eqn:Hw |].
  - match goal with
    | |- context [clear_current_history ?l ?m0] =>
        destruct (clear_current_history_reruns l m0) as (m1 & -> & S)
    end.
    eexists _, _. split; [reflexivity |]. split; [exact S | discriminate].
  - cbn.
    match goal with
    | |- context [export_to_web inp ?m0] =>
        destruct (export_to_web_drew_only inp m0) as (r & m1 & -> & D)
    end.
    destruct D as (D1 & D2 & D3 & D4 & D5 & D6).
    destruct r as [s|[]]; [| destruct (refresh inp)]; cbn;
      eexists _, _; (split; [reflexivity |]); (split; [exact D3 |]);
      intros E; try discriminate E; now repeat split.
  - cbn.
    match goal with
    | |- context [export_to_web inp ?m0] =>
        destruct (export_to_web_drew_only inp m0) as (r & m1 & -> & D)
    end.
    destruct D as (D1 & D2 & D3 & D4 & D5 & D6).
    destruct r as [s|[]]; [| destruct (refresh inp)]; cbn;
      eexists _, _; (split; [reflexivity |]); (split; [exact D3 |]);
      intros E; try discriminate E; now repeat split.
Qed.

Lemma render_messages_drew_only (messages : list Content) (m : machine) :
  exists r m', render_messages messages m = (r, m') /\ drew_only m m'.
Proof.
  revert m. induction messages as [|message rest IH]; intros m.
  - eexists _, _. split; [reflexivity | apply drew_only_refl].
  - cbn. unfold render_message.
    destruct (parts message) as [|[text|repr] ps]; cbn.
    + eexists _, _. split; [reflexivity | apply drew_only_refl].
    + match goal with
      | |- context [render_messages rest ?m0] =>
          destruct (IH m0) as (r & m1 & -> & D)
      end.
      eexists _, _. split; [reflexivity |].
      destruct D as (D1 & D2 & D3 & D4 & D5 & D6). now repeat split.
    + eexists _, _. split; [reflexivity | apply drew_only_refl].
Qed.

Lemma chat_interface_drew_only (inp : inputs) (m : machine) :
  exists r m', chat_interface inp m = (r, m') /\ drew_only m m'.
Proof.
  unfold chat_interface. cbn.
  destruct (chat_session (state m)) as [[session|]|] eqn:K; cbn.
  - match goal with
    | |- context [render_messages _ ?m0] =>
        destruct (render_messages_drew_only (history session) m0) as (r & m1 & -> & D)
    end.
    eexists _, _. split; [reflexivity |].
    destruct D as (D1 & D2 & D3 & D4 & D5 & D6). now repeat split.
  - eexists _, _. split; [reflexivity |]. now repeat split.
  - eexists _, _. split; [reflexivity |]. now repeat split.
Qed.

Lemma chat_interface_empty (inp : inputs) (m : machine) (mdl : GenerativeModel) :
  chat_session (state m) = Some (Some {| model := mdl; history := [] |}) ->
  exists m', chat_interface inp m = (inr tt, m') /\ drew_only m m'
             /\ state m' = state m.
Proof.
  intros K. unfold chat_interface. cbn. rewrite K. cbn.
  eexists. split; [reflexivity |]. now repeat split.
Qed.

(** The cold start that the service answers. *)
Lemma cold_start_replied
  (inp : inputs) (m : machine) (session : ChatSession) (answer : string) :
  is_initialized (state m) = Some false ->
  chat_session (state m) = Some (Some session) ->
  cold_start_reply inp = Replies answer ->
  get_history_filename (LANG_OPTIONS (selected inp)) ∉ locked (disk m) ->
  cold_start inp m =
    (inr tt,
     {| disk :=
          {| files :=
               <[get_history_filename (LANG_OPTIONS (selected inp)) :=
                   Json (JList
                           (map message_data
                              (history session
                               ++ [sent_content
                                     (cold_start_prompt (display_name (selected inp)));
                                   received_content answer])))]>
                 (files (disk m));
             locked := locked (disk m) |};
        state :=
          {| selected_label_key := selected_label_key (state m);
             chat_session :=
               Some (Some {| model := model session;
                             history :=
                               history session
                               ++ [sent_content
                                     (cold_start_prompt (display_name (selected inp)));
                                   received_content answer] |});
             current_lang_code := current_lang_code (state m);
             is_initialized := Some true |};
        screen := screen m ++ [st_chat_markdown "assistant" answer];
        console := console m;
        sent := sent m
                ++ [(ColdStart, cold_start_prompt (display_name (selected inp)))] |}).
Proof.
  intros Hinit Hsess Hreply Hlock. unfold cold_start. cbn. rewrite Hinit.
  unfold send_message, session_history. cbn. rewrite Hsess. cbn.
  rewrite Hreply. cbn.
  rewrite save_history_safe_unlocked by (cbn; assumption). reflexivity.
Qed.

(** The cold start on which the service raises. *)
Lemma cold_start_raised
  (inp : inputs) (m : machine) (session : ChatSession) (e : exn) :
  is_initialized (state m) = Some false ->
  chat_session (state m) = Some (Some session) ->
  cold_start_reply inp = Raises e ->
  cold_start inp m =
    (inr tt,
     {| disk := disk m;
        state := state m;
        screen := screen m ++ [st_error ("Initialization Error: " +:+ exn_text e)];
        console := console m;
        sent := sent m
                ++ [(ColdStart, cold_start_prompt (display_name (selected inp)))] |}).
Proof.
  intros Hinit Hsess Hreply. unfold cold_start. cbn. rewrite Hinit.
  unfold send_message. cbn. rewrite Hsess. cbn. now rewrite Hreply.
Qed.

Lemma user_input_handling_idle (inp : inputs) (m : machine) :
  user_input inp = None -> user_input_handling inp m = (inr tt, m).
Proof. intros H. unfold user_input_handling. now rewrite H. Qed.

(** Whatever happens in it, the user-input block makes user-turn calls
    only. *)
Lemma user_input_handling_calls (inp : inputs) (m : machine) :
  exists r m' calls,
    user_input_handling inp m = (r, m')
    /\ sent m' = (sent m ++ calls)%list
    /\ user_turns_only calls.
Proof.
  unfold user_input_handling.
  destruct (user_input inp) as [[|c text]|].
  - exists (inr tt), m, []. rewrite app_nil_r. repeat split. constructor.
  - unfold send_message, session_history. cbn.
    destruct (chat_session (state m)) as [[session|]|] eqn:K; cbn.
    + destruct (user_turn_reply inp) as [answer|e|received e]; cbn.
      * match goal with
        | |- context [save_history_safe ?h ?l ?m0] =>
            destruct (decide (get_history_filename l ∈ locked (disk m0))) as [L|L];
            [destruct (save_history_safe_locked h l m0 L) as [line ->]
            | rewrite (save_history_safe_unlocked h l m0 L)]
        end; cbn;
          eexists _, _, [_]; (split; [reflexivity |]);
          (split; [reflexivity |]); now repeat constructor.
      * destruct (exn_kind e); cbn;
          eexists _, _, [_]; (split; [reflexivity |]);
          (split; [reflexivity |]); now repeat constructor.
      * destruct (exn_kind e); cbn;
          eexists _, _, [_]; (split; [reflexivity |]);
          (split; [reflexivity |]); now repeat constructor.
    + eexists _, _, []. split; [reflexivity |]. cbn. rewrite app_nil_r.
      split; [reflexivity | constructor].
    + eexists _, _, []. split; [reflexivity |]. cbn. rewrite app_nil_r.
      split; [reflexivity | constructor].
  - exists (inr tt), m, []. rewrite app_nil_r. repeat split. constructor.
Qed.

(** Once the flag is set and a session is kept for the selected language,
    a run of the script makes no cold-start call, whatever its inputs. *)
Lemma app_initialized_no_cold_start
  (inp : inputs) (m : machine) (kept : option ChatSession) :
  is_initialized (state m) = Some true ->
  chat_session (state m) = Some kept ->
  current_lang_code (state m) = Some (LANG_OPTIONS (selected inp)) ->
  exists r m' calls,
    app inp m = (r, m')
    /\ sent m' = (sent m ++ calls)%list
    /\ user_turns_only calls.
Proof.
  intros Hinit Hsess Hlang. unfold app.
  destruct (default_selection_run m) as (m0 & H0 & D0).
  rewrite (bind_returned _ _ _ _ _ H0).
  destruct D0 as (_ & _ & S0 & K0 & L0 & I0).
  destruct (sidebar_sends_nothing inp m0) as (r1 & m1 & H1 & S1 & D1).
  destruct r1 as [s|[]].
  { rewrite (bind_signalled _ _ _ _ _ H1). exists (inl s), m1, [].
    rewrite app_nil_r. split; [reflexivity |]. split; [congruence | constructor]. }
  rewrite (bind_returned _ _ _ _ _ H1).
  destruct (D1 eq_refl) as (_ & _ & _ & K1 & L1 & I1).
  rewrite (bind_returned _ _ _ _ _
             (session_block_kept inp m1 kept ltac:(congruence) ltac:(congruence))).
  destruct (chat_interface_drew_only inp m1) as (r2 & m2 & H2 & D2).
  destruct D2 as (_ & _ & S2 & K2 & L2 & I2).
  destruct r2 as [s|[]].
  { rewrite (bind_signalled _ _ _ _ _ H2). exists (inl s), m2, [].
    rewrite app_nil_r. split; [reflexivity |]. split; [congruence | constructor]. }
  rewrite (bind_returned _ _ _ _ _ H2).
  rewrite (bind_returned _ _ _ _ _
             (cold_start_skipped inp m2 ltac:(congruence))).
  destruct (user_input_handling_calls inp m2) as (r3 & m3 & calls & H3 & S3 & U3).
  exists r3, m3, calls. split; [exact H3 |]. split; [congruence | exact U3].
Qed.

(** A run on a language with no file, up to the cold start: the sidebar
    and the chat interface only draw, the session block leaves an empty
    session with the flag unset, and nothing was sent. *)
Lemma app_fresh_language (inp : inputs) (m : machine) :
  files (disk m) !! get_history_filename (LANG_OPTIONS (selected inp)) = None ->
  needs_session inp m ->
  confirm_delete inp = false ->
  refresh inp = false ->
  to_contents (JList []) = inr [] ->
  exists m2 m3,
    bind default_selection
      (fun _ => bind (sidebar inp) (fun _ => session_block inp)) m = (inr tt, m2)
    /\ app inp m
       = bind (cold_start inp) (fun _ => user_input_handling inp) m3
    /\ state m3 = state m2
    /\ chat_session (state m2)
       = Some (Some {| model := initialize_model (display_name (selected inp));
                       history := [] |})
    /\ current_lang_code (state m2) = Some (LANG_OPTIONS (selected inp))
    /\ is_initialized (state m2) = Some false
    /\ disk m2 = disk m /\ sent m2 = sent m
    /\ disk m3 = disk m /\ sent m3 = sent m.
Proof.
  intros F Hneed Hc Hr Hnil.
  destruct (default_selection_run m) as (m0 & H0 & D0).
  destruct D0 as (D0 & _ & S0 & K0 & L0 & I0).
  destruct (sidebar_fresh inp m0) as (m1 & H1 & D1); try assumption;
    [now rewrite D0 |].
  destruct D1 as (D1 & _ & S1 & K1 & L1 & I1).
  assert (needs_session inp m1) as Hneed1.
  { destruct Hneed as [N|N]; [left | right]; congruence. }
  assert (load_history_safe (LANG_OPTIONS (selected inp)) m1 = (inr (JList []), m1))
    as Hload by (apply load_history_safe_absent; now rewrite D1, D0).
  pose proof (session_block_seeded inp m1 m1 (JList []) (JList []) 0 []
                Hneed1 Hload eq_refl eq_refl Hnil) as H2.
  match type of H2 with _ = (_, ?x) => set (m2 := x) in * end.
  destruct (chat_interface_empty inp m2 _ eq_refl) as (m3 & H3 & D3 & E3).
  destruct D3 as (D3 & _ & S3 & _).
  exists m2, m3. split; [| split].
  - rewrite (bind_returned _ _ _ _ _ H0), (bind_returned _ _ _ _ _ H1).
    exact H2.
  - unfold app.
    rewrite (bind_returned _ _ _ _ _ H0), (bind_returned _ _ _ _ _ H1).
    rewrite (bind_returned _ _ _ _ _ H2), (bind_returned _ _ _ _ _ H3).
    reflexivity.
  - split; [exact E3 |]. subst m2. cbn in *.
    repeat split; congruence.
Qed.

(** C5. On a language with no file the session block leaves
    [is_initialized] false, and the run makes exactly one cold-start call.
    When the call is answered the file then holds exactly two messages and
    the flag is true, so that no later run on that language makes a
    cold-start call again; when it raises, the flag stays false, the error
    is drawn, the files are as they were, and the run ends there, with that
    one call and no second attempt. *)
Theorem cold_start_runs_once_on_fresh_language (inp : inputs) (m : machine) :
  files (disk m) !! get_history_filename (LANG_OPTIONS (selected inp)) = None ->
  needs_session inp m ->
  confirm_delete inp = false ->
  refresh inp = false ->
  user_input inp = None ->
  to_contents (JList []) = inr [] ->
  (exists m2,
      bind default_selection
        (fun _ => bind (sidebar inp) (fun _ => session_block inp)) m = (inr tt, m2)
      /\ is_initialized (state m2) = Some false
      /\ sent m2 = sent m)
  /\ (forall answer,
         cold_start_reply inp = Replies answer ->
         get_history_filename (LANG_OPTIONS (selected inp)) ∉ locked (disk m) ->
         exists m',
           app inp m = (inr tt, m')
           /\ sent m'
              = (sent m
                 ++ [(ColdStart, cold_start_prompt (display_name (selected inp)))])%list
           /\ files (disk m') !! get_history_filename (LANG_OPTIONS (selected inp))
              = Some (Json (JList
                              [message_data
                                 (sent_content
                                    (cold_start_prompt (display_name (selected inp))));
                               message_data (received_content answer)]))
           /\ is_initialized (state m') = Some true
           /\ (forall inp',
                  selected inp' = selected inp ->
                  exists r m'' calls,
                    app inp' m' = (r, m'')
                    /\ sent m'' = (sent m' ++ calls)%list
                    /\ user_turns_only calls))
  /\ (forall e,
         cold_start_reply inp = Raises e ->
         exists m',
           app inp m = (inr tt, m')
           /\ sent m'
              = (sent m
                 ++ [(ColdStart, cold_start_prompt (display_name (selected inp)))])%list
           /\ st_error ("Initialization Error: " +:+ exn_text e) ∈ screen m'
           /\ is_initialized (state m') = Some false
           /\ disk m' = disk m).
Proof.
  intros F Hneed Hc Hr Hin Hnil.
  destruct (app_fresh_language inp m F Hneed Hc Hr Hnil)
    as (m2 & m3 & Hpre & Happ & E3 & K2 & L2 & I2 & D2 & S2 & D3 & S3).
  split; [| split].
  - exists m2. now repeat split.
  - intros answer Hreply Hlock.
    pose proof (cold_start_replied inp m3 _ answer
                  ltac:(now rewrite E3) ltac:(rewrite E3; exact K2) Hreply
                  ltac:(now rewrite D3)) as Hcold.
    match type of Hcold with _ = (_, ?x) => set (m4 := x) in * end.
    exists m4. split; [| split; [| split; [| split]]].
    + rewrite Happ, (bind_returned _ _ _ _ _ Hcold).
      now apply user_input_handling_idle.
    + subst m4. cbn. now rewrite S3.
    + subst m4. cbn. apply lookup_insert_eq.
    + reflexivity.
    + intros inp' Hsel.
      eapply app_initialized_no_cold_start; subst m4; cbn.
      * reflexivity.
      * reflexivity.
      * now rewrite E3, L2, Hsel.
  - intros e Hreply.
    pose proof (cold_start_raised inp m3 _ e
                  ltac:(now rewrite E3) ltac:(rewrite E3; exact K2) Hreply) as Hcold.
    match type of Hcold with _ = (_, ?x) => set (m4 := x) in * end.
    exists m4. split; [| split; [| split; [| split]]].
    + rewrite Happ, (bind_returned _ _ _ _ _ Hcold).
      now apply user_input_handling_idle.
    + subst m4. cbn. now rewrite S3.
    + subst m4. cbn. apply elem_of_app. right. apply list_elem_of_singleton.
      reflexivity.
    + subst m4. cbn. now rewrite E3.
    + subst m4. cbn. exact D3.
Qed.

(** ** What the blocks keep *)

Lemma keeps_bind {A B : Type} (R : machine -> machine -> Prop)
  `{!Transitive R} (c : Script A) (k : A -> Script B) :
  keeps R c -> (forall a, keeps R (k a)) -> keeps R (bind c k).
Proof.
  intros Hc Hk m. specialize (Hc m). unfold bind.
  destruct (c m) as [[s|a] m1]; cbn in *; [exact Hc |].
  etransitivity; [exact Hc | apply Hk].
Qed.

Lemma keeps_try_except {A : Type} (R : machine -> machine -> Prop)
  `{!Transitive R} (body : Script A) (handler : exn -> Script A) :
  keeps R body -> (forall e, keeps R (handler e)) ->
  keeps R (try_except body handler).
Proof.
  intros Hb Hh m. specialize (Hb m). unfold try_except.
  destruct (body m) as [[[|e]|a] m1]; cbn in *; try exact Hb.
  etransitivity; [exact Hb | apply Hh].
Qed.

Lemma keeps_weaken {A : Type} (R R' : machine -> machine -> Prop) (c : Script A) :
  (forall m m', R m m' -> R' m m') -> keeps R c -> keeps R' c.
Proof. intros HR Hc m. apply HR, Hc. Qed.

#[local] Instance quiet_transitive : Transitive quiet.
Proof. intros m1 m2 m3 (D1 & S1 & C1) (D2 & S2 & C2). repeat split; congruence. Qed.

#[local] Instance only_touches_transitive path : Transitive (only_touches path).
Proof.
  intros m1 m2 m3 [L1 F1] [L2 F2]. split; [congruence |].
  intros other Ho. rewrite F2, F1 by assumption. reflexivity.
Qed.

#[local] Instance no_file_lost_transitive : Transitive no_file_lost.
Proof.
  intros m1 m2 m3 [L1 F1] [L2 F2]. split; [congruence |].
  intros path Hp. apply F2, F1, Hp.
Qed.

Lemma quiet_ret {A : Type} (a : A) : keeps quiet (ret a).
Proof. intros m. now repeat split. Qed.

Lemma quiet_raise {A : Type} (e : exn) : keeps quiet (@raise A e).
Proof. intros m. now repeat split. Qed.

Lemma quiet_lift {A : Type} (r : exn + A) : keeps quiet (lift r).
Proof. destruct r; [apply quiet_raise | apply quiet_ret]. Qed.

Lemma quiet_draw (e : element) : keeps quiet (draw e).
Proof. intros m. now repeat split. Qed.

Lemma quiet_st_rerun {A : Type} : keeps quiet (@st_rerun A).
Proof. intros m. now repeat split. Qed.

Lemma quiet_get_state : keeps quiet get_state.
Proof. intros m. now repeat split. Qed.

Lemma quiet_put_state (s : session_state) : keeps quiet (put_state s).
Proof. intros m. now repeat split. Qed.

Lemma quiet_set_selected_label_key (v : string) : keeps quiet (set_selected_label_key v).
Proof. intros m. now repeat split. Qed.

Lemma quiet_set_chat_session (v : option ChatSession) : keeps quiet (set_chat_session v).
Proof. intros m. now repeat split. Qed.

Lemma quiet_set_current_lang_code (v : string) : keeps quiet (set_current_lang_code v).
Proof. intros m. now repeat split. Qed.

Lemma quiet_set_is_initialized (v : bool) : keeps quiet (set_is_initialized v).
Proof. intros m. now repeat split. Qed.

Lemma quiet_no_such_key {A : Type} (key : string) : keeps quiet (@no_such_key A key).
Proof. intros m. now repeat split. Qed.

Lemma quiet_os_path_exists (path : string) : keeps quiet (os_path_exists path).
Proof. intros m. now repeat split. Qed.

Lemma quiet_read_json (path : string) : keeps quiet (read_json path).
Proof.
  intros m. unfold read_json.
  destruct (bool_decide _); [now repeat split |].
  destruct (files (disk m) !! path) as [[v|raw|raw e]|]; now repeat split.
Qed.

Create HintDb keeps.
#[local] Hint Resolve quiet_ret quiet_raise quiet_lift quiet_draw quiet_st_rerun
  quiet_get_state quiet_put_state quiet_set_selected_label_key
  quiet_set_chat_session quiet_set_current_lang_code quiet_set_is_initialized
  quiet_no_such_key quiet_os_path_exists quiet_read_json : keeps.

(** One step through the structure of a block. *)
Ltac keeps_step :=
  match goal with
  | |- keeps _ (bind _ _) => apply keeps_bind; [try exact _ | | intros ?]
  | |- keeps _ (try_except _ _) => apply keeps_try_except; [try exact _ | | intros ?]
  | |- keeps _ (if ?b then _ else _) => destruct b
  | |- keeps _ (match ?x with _ => _ end) => destruct x
  | |- keeps _ _ => solve [eauto with keeps]
  end.

Lemma quiet_load_history_safe (lang_code : string) :
  keeps quiet (load_history_safe lang_code).
Proof. unfold load_history_safe. cbv zeta. repeat keeps_step. Qed.

Lemma quiet_export_to_web (inp : inputs) : keeps quiet (export_to_web inp).
Proof.
  pose proof quiet_load_history_safe.
  unfold export_to_web. cbv zeta. repeat keeps_step.
Qed.

Lemma quiet_default_selection : keeps quiet default_selection.
Proof. unfold default_selection. repeat keeps_step. Qed.

Lemma quiet_start_chat (mdl : GenerativeModel) (h : json) :
  keeps quiet (start_chat mdl h).
Proof. unfold start_chat. repeat keeps_step. Qed.

Lemma quiet_session_block (inp : inputs) : keeps quiet (session_block inp).
Proof.
  pose proof quiet_load_history_safe. pose proof quiet_start_chat.
  unfold session_block. cbv zeta. repeat keeps_step.
Qed.

Lemma quiet_render_messages (messages : list Content) :
  keeps quiet (render_messages messages).
Proof.
  induction messages as [|message rest IH]; cbn [render_messages];
    [apply quiet_ret |].
  unfold render_message. cbv zeta. repeat keeps_step.
Qed.

Lemma quiet_chat_interface (inp : inputs) : keeps quiet (chat_interface inp).
Proof.
  pose proof quiet_render_messages.
  unfold chat_interface. cbv zeta. repeat keeps_step.
Qed.

(** X1. The session block, the export and the chat interface only read the
    history files: however they end, the files are as they were, nothing is
    printed and no call to the service is made. *)
Theorem loading_and_drawing_write_nothing (inp : inputs) (m : machine) :
  quiet m (session_block inp m).2
  /\ quiet m (export_to_web inp m).2
  /\ quiet m (chat_interface inp m).2.
Proof.
  split; [apply quiet_session_block |].
  split; [apply quiet_export_to_web | apply quiet_chat_interface].
Qed.

(** A relation that holds across every step leaving the files alone, and
    across the saves and the clear switch of one run, holds across the
    run. *)
Section Kept.

Variable R : machine -> machine -> Prop.
Context `{!Transitive R}.
Hypothesis R_same_disk : forall m m', disk m' = disk m -> R m m'.

Variable inp : inputs.
Hypothesis R_save :
  forall h, keeps R (save_history_safe h (LANG_OPTIONS (selected inp))).
Hypothesis R_clear : keeps R (clear_history_switch inp).

Lemma kept_of_quiet {A : Type} (c : Script A) : keeps quiet c -> keeps R c.
Proof. apply keeps_weaken. intros m m' (D & _). now apply R_same_disk. Qed.

Lemma kept_send_message (site : call_site) (reply : gateway) (text : string) :
  keeps R (send_message site reply text).
Proof.
  unfold send_message. apply keeps_bind; [exact _ | apply kept_of_quiet; auto with keeps |].
  intros s. destruct (chat_session s) as [[session|]|];
    try solve [apply kept_of_quiet; auto with keeps].
  apply keeps_bind; [exact _ | intros m; now apply R_same_disk |].
  intros _. destruct reply; apply kept_of_quiet; repeat keeps_step.
Qed.

Lemma kept_session_history : keeps R session_history.
Proof. apply kept_of_quiet. unfold session_history. repeat keeps_step. Qed.

Lemma kept_cold_start : keeps R (cold_start inp).
Proof.
  pose proof kept_send_message. pose proof kept_session_history.
  unfold cold_start. cbv zeta.
  apply keeps_bind; [exact _ | apply kept_of_quiet; auto with keeps |].
  intros s. destruct (is_initialized s) as [[|]|];
    try solve [apply kept_of_quiet; auto with keeps].
  apply keeps_try_except; [exact _ | | intros e; apply kept_of_quiet; auto with keeps].
  apply keeps_bind; [exact _ | auto |]. intros response.
  apply keeps_bind; [exact _ | apply kept_of_quiet; auto with keeps |]. intros answer.
  apply keeps_bind; [exact _ | apply kept_of_quiet; auto with keeps |]. intros _.
  apply keeps_bind; [exact _ | apply kept_of_quiet; auto with keeps |]. intros _.
  apply keeps_bind; [exact _ | auto |]. intros h. apply R_save.
Qed.

Lemma kept_user_input_handling : keeps R (user_input_handling inp).
Proof.
  pose proof kept_send_message. pose proof kept_session_history.
  unfold user_input_handling. cbv zeta.
  destruct (user_input inp) as [[|c text]|];
    try solve [apply kept_of_quiet; auto with keeps].
  apply keeps_bind; [exact _ | apply kept_of_quiet; auto with keeps |]. intros _.
  apply keeps_try_except; [exact _ | |].
  - apply keeps_bind; [exact _ | auto |]. intros response.
    apply keeps_bind; [exact _ | apply kept_of_quiet; auto with keeps |]. intros answer.
    apply keeps_bind; [exact _ | apply kept_of_quiet; auto with keeps |]. intros _.
    apply keeps_bind; [exact _ | auto |]. intros h. apply R_save.
  - intros e. destruct (exn_kind e); apply kept_of_quiet; auto with keeps.
Qed.

Lemma kept_sidebar : keeps R (sidebar inp).
Proof.
  unfold sidebar. cbv zeta.
  apply keeps_bind; [exact _ | apply kept_of_quiet; auto with keeps |]. intros _.
  apply keeps_bind; [exact _ | apply kept_of_quiet; auto with keeps |]. intros _.
  apply keeps_bind; [exact _ | apply kept_of_quiet; auto with keeps |]. intros _.
  apply keeps_bind; [exact _ | apply kept_of_quiet; auto with keeps |]. intros _.
  apply keeps_bind; [exact _ | exact R_clear |]. intros _.
  apply keeps_bind; [exact _ | apply kept_of_quiet, quiet_export_to_web |]. intros _.
  destruct (refresh inp); apply kept_of_quiet; auto with keeps.
Qed.

Lemma kept_app : keeps R (app inp).
Proof.
  unfold app.
  apply keeps_bind; [exact _ | apply kept_of_quiet, quiet_default_selection |]. intros _.
  apply keeps_bind; [exact _ | apply kept_sidebar |]. intros _.
  apply keeps_bind; [exact _ | apply kept_of_quiet, quiet_session_block |]. intros _.
  apply keeps_bind; [exact _ | apply kept_of_quiet, quiet_chat_interface |]. intros _.
  apply keeps_bind; [exact _ | apply kept_cold_start |]. intros _.
  apply kept_user_input_handling.
Qed.

End Kept.

Lemma only_touches_same_disk (path : string) (m m' : machine) :
  disk m' = disk m -> only_touches path m m'.
Proof. intros D. split; now rewrite D. Qed.

Lemma no_file_lost_same_disk (m m' : machine) :
  disk m' = disk m -> no_file_lost m m'.
Proof. intros D. split; now rewrite D. Qed.

Lemma only_touches_write_json (path : string) (data : json) :
  keeps (only_touches path) (write_json path data).
Proof.
  intros m. unfold write_json.
  destruct (bool_decide _); [now apply only_touches_same_disk |].
  split; [reflexivity |]. intros other Ho. cbn. now apply lookup_insert_ne.
Qed.

Lemma no_file_lost_write_json (path : string) (data : json) :
  keeps no_file_lost (write_json path data).
Proof.
  intros m. unfold write_json.
  destruct (bool_decide _); [now apply no_file_lost_same_disk |].
  split; [reflexivity |]. intros p Hp. cbn.
  destruct (decide (path = p)) as [->|Hne].
  - rewrite lookup_insert_eq. eauto.
  - now rewrite lookup_insert_ne.
Qed.

Lemma only_touches_os_remove (path : string) :
  keeps (only_touches path) (os_remove path).
Proof.
  intros m. unfold os_remove.
  destruct (bool_decide _); [now apply only_touches_same_disk |].
  destruct (files (disk m) !! path); [| now apply only_touches_same_disk].
  split; [reflexivity |]. intros other Ho. cbn. now apply lookup_delete_ne.
Qed.

Lemma only_touches_print (path line : string) :
  keeps (only_touches path) (print line).
Proof. intros m. now apply only_touches_same_disk. Qed.

Lemma no_file_lost_print (line : string) : keeps no_file_lost (print line).
Proof. intros m. now apply no_file_lost_same_disk. Qed.

Lemma only_touches_save (h : list Content) (lang_code : string) :
  keeps (only_touches (get_history_filename lang_code))
        (save_history_safe h lang_code).
Proof.
  unfold save_history_safe. cbv zeta.
  apply keeps_try_except; [exact _ | apply only_touches_write_json |].
  intros e. apply only_touches_print.
Qed.

Lemma no_file_lost_save (h : list Content) (lang_code : string) :
  keeps no_file_lost (save_history_safe h lang_code).
Proof.
  unfold save_history_safe. cbv zeta.
  apply keeps_try_except; [exact _ | apply no_file_lost_write_json |].
  intros e. apply no_file_lost_print.
Qed.

Lemma only_touches_clear_current_history (lang_code : string) :
  keeps (only_touches (get_history_filename lang_code))
        (clear_current_history lang_code).
Proof.
  assert (forall A (c : Script A), keeps quiet c ->
            keeps (only_touches (get_history_filename lang_code)) c) as Q.
  { intros A c. apply keeps_weaken. intros m m' (D & _).
    now apply only_touches_same_disk. }
  unfold clear_current_history. cbv zeta.
  apply keeps_bind; [exact _ | apply Q; auto with keeps |]. intros found.
  apply keeps_bind; [exact _ | |].
  - destruct found; [| apply Q; auto with keeps].
    apply keeps_try_except; [exact _ | apply only_touches_os_remove |].
    intros e. destruct (exn_class_eqb _ _); apply Q; auto with keeps.
  - intros _. apply keeps_bind; [exact _ | apply Q; auto with keeps |].
    intros _. apply Q; auto with keeps.
Qed.

Lemma only_touches_clear_history_switch (inp : inputs) :
  keeps (only_touches (get_history_filename (LANG_OPTIONS (selected inp))))
        (clear_history_switch inp).
Proof.
  assert (forall A (c : Script A), keeps quiet c ->
            keeps (only_touches (get_history_filename (LANG_OPTIONS (selected inp)))) c)
    as Q.
  { intros A c. apply keeps_weaken. intros m m' (D & _).
    now apply only_touches_same_disk. }
  unfold clear_history_switch. cbv zeta.
  apply keeps_bind; [exact _ | apply Q; auto with keeps |]. intros _.
  apply keeps_bind; [exact _ | apply Q; auto with keeps |]. intros _.
  destruct (confirm_delete inp); [| apply Q; auto with keeps].
  destruct (String.eqb _ _); [| apply Q; auto with keeps].
  apply only_touches_clear_current_history.
Qed.

Lemma no_file_lost_clear_history_switch (inp : inputs) :
  confirm_delete inp = false
  \/ String.eqb (lower (strip (confirm_text inp))) "delete" = false ->
  keeps no_file_lost (clear_history_switch inp).
Proof.
  intros H m. apply no_file_lost_same_disk.
  destruct (String.eqb (lower (strip (confirm_text inp))) "delete") eqn:E.
  - destruct H as [H|H]; [| discriminate H].
    now rewrite clear_history_switch_idle.
  - destruct (clear_history_switch_refused inp m E) as [shown ->]. reflexivity.
Qed.

(** X2. A run of the script only ever touches the history file of the
    selected language: whatever the inputs and however the run ends, every
    other file is as it was. *)
Theorem run_touches_only_selected_file (inp : inputs) (m : machine) (other : string) :
  other <> get_history_filename (LANG_OPTIONS (selected inp)) ->
  files (disk (app inp m).2) !! other = files (disk m) !! other.
Proof.
  intros Ho.
  assert (only_touches (get_history_filename (LANG_OPTIONS (selected inp)))
            m (app inp m).2) as [_ F].
  { apply kept_app.
    - exact _.
    - intros. now apply only_touches_same_disk.
    - intros h. apply only_touches_save.
    - apply only_touches_clear_history_switch. }
  now apply F.
Qed.

(** X3. A run deletes no file unless the delete button is pressed with the
    confirmation word: without that, every file present before the run
    (of any language) is still present after it, however the run ends. *)
Theorem run_deletes_only_on_confirmation (inp : inputs) (m : machine) (path : string) :
  confirm_delete inp = false
  \/ String.eqb (lower (strip (confirm_text inp))) "delete" = false ->
  is_Some (files (disk m) !! path) ->
  is_Some (files (disk (app inp m).2) !! path).
Proof.
  intros H Hp.
  assert (no_file_lost m (app inp m).2) as [_ F].
  { apply kept_app.
    - exact _.
    - intros. now apply no_file_lost_same_disk.
    - intros h. apply no_file_lost_save.
    - now apply no_file_lost_clear_history_switch. }
  now apply F.
Qed.

(** ** File names *)

Lemma append_cons (c : ascii) (a b : string) :
  String c a +:+ b = String c (a +:+ b).
Proof. reflexivity. Qed.

Lemma all_chars_filter_chars (test : ascii -> bool) (s : string) :
  all_chars test (filter_chars test s) = true.
Proof.
  induction s as [|c s IH]; [reflexivity |]. cbn.
  destruct (test c) eqn:E; [cbn; now rewrite E | exact IH].
Qed.

Lemma filter_chars_all (test : ascii -> bool) (s : string) :
  all_chars test s = true -> filter_chars test s = s.
Proof.
  induction s as [|c s IH]; [reflexivity |]. cbn.
  intros [Hc Hs]%andb_true_iff. rewrite Hc. now rewrite IH.
Qed.

Lemma all_chars_filter_kept (test keep : ascii -> bool) (s : string) :
  all_chars test s = true -> all_chars test (filter_chars keep s) = true.
Proof.
  induction s as [|c s IH]; [reflexivity |]. cbn.
  intros [Hc Hs]%andb_true_iff.
  destruct (keep c); [cbn; now rewrite Hc, IH | now apply IH].
Qed.

Lemma filter_chars_append (test : ascii -> bool) (a b : string) :
  filter_chars test (a +:+ b) = filter_chars test a +:+ filter_chars test b.
Proof.
  induction a as [|c a IH]; [reflexivity |].
  rewrite append_cons. cbn. destruct (test c); [| exact IH].
  rewrite append_cons. now rewrite IH.
Qed.

(** X4. For a language code of ASCII characters, the name of the history
    file is [history_], then the letters and digits of the code (no
    separator, no dot), then [.json]; a code made of letters and digits
    only is that part. *)
Theorem history_filename_is_sanitized (lang_code : string) :
  is_ascii lang_code = true ->
  exists safe_name,
    get_history_filename lang_code = "history_" +:+ safe_name +:+ ".json"
    /\ safe_name = filter_chars isalnum lang_code
    /\ all_chars isalnum safe_name = true
    /\ is_ascii safe_name = true
    /\ (all_chars isalnum lang_code = true -> safe_name = lang_code).
Proof.
  intros Hascii. exists (filter_chars isalnum lang_code).
  split; [reflexivity |]. split; [reflexivity |].
  split; [apply all_chars_filter_chars |].
  split; [now apply all_chars_filter_kept | apply filter_chars_all].
Qed.

(** X5. An ASCII character that is no letter and no digit does not count
    in the file name: two ASCII codes that differ by such characters only
    share one history file. *)
Theorem history_filename_ignores_symbols (a b : string) (c : ascii) :
  is_ascii a = true ->
  is_ascii b = true ->
  ascii_char c = true ->
  isalnum c = false ->
  get_history_filename (a +:+ String c b) = get_history_filename (a +:+ b).
Proof.
  intros _ _ _ Hc. unfold get_history_filename.
  rewrite !filter_chars_append. cbn. now rewrite Hc.
Qed.

(** X6. The six languages of the select box have six different history
    files. *)
Theorem languages_have_distinct_files (l1 l2 : language) :
  get_history_filename (LANG_OPTIONS l1) = get_history_filename (LANG_OPTIONS l2) ->
  l1 = l2.
Proof. destruct l1, l2; intros H; try reflexivity; discriminate H. Qed.

(** ** Saving and clearing *)

(** X7. [save_history_safe] never raises. When the file can be written it
    then holds the given history and nothing else changed; when it cannot,
    the files are as they were and one line is printed. The screen, the
    session state and the call log are untouched either way. *)
Theorem save_history_safe_never_raises
  (history : list Content) (lang_code : string) (m : machine) :
  exists m',
    save_history_safe history lang_code m = (inr tt, m')
    /\ state m' = state m /\ screen m' = screen m /\ sent m' = sent m
    /\ (((get_history_filename lang_code ∉ locked (disk m))
         /\ files (disk m')
            = (<[get_history_filename lang_code :=
                   Json (JList (map message_data history))]> (files (disk m)))
         /\ locked (disk m') = locked (disk m)
         /\ console m' = console m)
        \/ ((get_history_filename lang_code ∈ locked (disk m))
            /\ disk m' = disk m
            /\ exists line, console m' = (console m ++ [line])%list)).
Proof.
  destruct (decide (get_history_filename lang_code ∈ locked (disk m))) as [L|L].
  - destruct (save_history_safe_locked history lang_code m L) as [line ->].
    eexists. split; [reflexivity |]. cbn. repeat split. right. eauto.
  - rewrite (save_history_safe_unlocked history lang_code m L).
    eexists. split; [reflexivity |]. cbn. repeat split. left. now repeat split.
Qed.

(** X8. Saving overwrites: after two saves to the same language the files
    are what the second save alone would have left. *)
Theorem save_twice_keeps_last
  (h1 h2 : list Content) (lang_code : string) (m : machine) :
  disk (save_history_safe h2 lang_code (save_history_safe h1 lang_code m).2).2
  = disk (save_history_safe h2 lang_code m).2.
Proof.
  destruct (decide (get_history_filename lang_code ∈ locked (disk m))) as [L|L].
  - destruct (save_history_safe_locked h1 lang_code m L) as [l1 ->].
    destruct (save_history_safe_locked h2 lang_code m L) as [l2 ->]. cbn.
    match goal with
    | |- context [save_history_safe h2 lang_code ?m1] =>
        destruct (save_history_safe_locked h2 lang_code m1 L) as [l3 ->]
    end.
    reflexivity.
  - rewrite (save_history_safe_unlocked h1 lang_code m L).
    rewrite (save_history_safe_unlocked h2 lang_code m L). cbn.
    rewrite save_history_safe_unlocked by (cbn; exact L). cbn.
    now rewrite insert_insert_eq.
Qed.

(** X9. [clear_current_history] never raises and always asks for a rerun.
    It sets [chat_session] to [None] and leaves the flag, the bound language,
    the screen, the console and the call log alone. A file that can be
    removed is gone afterwards; one that cannot stays, and the files are as
    they were. *)
Theorem clear_current_history_best_effort (lang_code : string) (m : machine) :
  exists m',
    clear_current_history lang_code m = (inl Rerun, m')
    /\ chat_session (state m') = Some None
    /\ is_initialized (state m') = is_initialized (state m)
    /\ current_lang_code (state m') = current_lang_code (state m)
    /\ screen m' = screen m /\ console m' = console m /\ sent m' = sent m
    /\ (get_history_filename lang_code ∉ locked (disk m) ->
        files (disk m') !! get_history_filename lang_code = None)
    /\ (get_history_filename lang_code ∈ locked (disk m) -> disk m' = disk m).
Proof.
  destruct (decide (get_history_filename lang_code ∈ locked (disk m))) as [L|L].
  - rewrite (clear_current_history_locked lang_code m L).
    eexists. split; [reflexivity |]. cbn. repeat split; try done.
  - rewrite (clear_current_history_unlocked lang_code m L).
    eexists. split; [reflexivity |]. cbn. repeat split; try done.
    intros _. apply lookup_delete_eq.
Qed.

(** X10. Clearing twice leaves the files as clearing once does, and after
    a clear that could remove the file [load_history_safe] returns the empty
    list. *)
Theorem clear_is_idempotent_and_empties (lang_code : string) (m : machine) :
  disk (clear_current_history lang_code (clear_current_history lang_code m).2).2
  = disk (clear_current_history lang_code m).2
  /\ (get_history_filename lang_code ∉ locked (disk m) ->
      exists m',
        load_history_safe lang_code (clear_current_history lang_code m).2
        = (inr (JList []), m')).
Proof.
  split.
  - destruct (decide (get_history_filename lang_code ∈ locked (disk m))) as [L|L].
    + rewrite (clear_current_history_locked lang_code m L). cbn.
      now rewrite clear_current_history_locked by (cbn; exact L).
    + rewrite (clear_current_history_unlocked lang_code m L). cbn.
      rewrite clear_current_history_unlocked by (cbn; exact L). cbn.
      rewrite (delete_id (delete _ _)) by apply lookup_delete_eq. reflexivity.
  - intros L. rewrite (clear_current_history_unlocked lang_code m L).
    eexists. apply load_history_safe_absent. cbn. apply lookup_delete_eq.
Qed.

(** ** More on the user turn *)

(** X11. Whatever exception the service raises on a user turn, the turn
    ends normally with one error drawn, one call recorded, and the files,
    the session state and the console as they were: no retry, no save. An
    outage gets its own message; an exception that is neither an outage nor
    quota exhaustion is shown with its own text. *)
Theorem user_turn_error_changes_nothing
  (inp : inputs) (m : machine) (session : ChatSession) (text : string) (e : exn) :
  user_input inp = Some text ->
  text <> "" ->
  user_turn_reply inp = Raises e ->
  chat_session (state m) = Some (Some session) ->
  exists m' message,
    user_input_handling inp m = (inr tt, m')
    /\ screen m' = (screen m ++ [st_chat_markdown "user" text; st_error message])%list
    /\ sent m' = (sent m ++ [(UserTurn, text)])%list
    /\ disk m' = disk m /\ state m' = state m /\ console m' = console m
    /\ (exn_kind e = ServiceUnavailable ->
        message = "⚠️ Service Unavailable: Google servers are temporarily down.")
    /\ (exn_kind e <> ServiceUnavailable -> exn_kind e <> ResourceExhausted ->
        message = "An error occurred: " +:+ exn_text e).
Proof.
  intros Hin Htext Hreply Hsess.
  eexists _, _. split; [eapply user_turn_raised; eassumption |].
  cbn. repeat split; destruct (exn_kind e); intros; congruence.
Qed.

(** A turn that is answered while the file cannot be written. *)
Lemma user_turn_replied_locked
  (inp : inputs) (m : machine) (session : ChatSession) (text answer : string) :
  user_input inp = Some text ->
  text <> "" ->
  user_turn_reply inp = Replies answer ->
  chat_session (state m) = Some (Some session) ->
  get_history_filename (LANG_OPTIONS (selected inp)) ∈ locked (disk m) ->
  exists line,
    user_input_handling inp m =
      (inr tt,
       {| disk := disk m;
          state :=
            {| selected_label_key := selected_label_key (state m);
               chat_session :=
                 Some (Some {| model := model session;
                               history := history session
                                          ++ [sent_content text;
                                              received_content answer] |});
               current_lang_code := current_lang_code (state m);
               is_initialized := is_initialized (state m) |};
          screen := screen m ++ [st_chat_markdown "user" text;
                                 st_chat_markdown "assistant" answer];
          console := console m ++ [line];
          sent := sent m ++ [(UserTurn, text)] |}).
Proof.
  intros Hin Htext Hreply Hsess Hlock. unfold user_input_handling.
  rewrite Hin. destruct text as [|c text]; [done |].
  unfold send_message, session_history. cbn. rewrite Hsess. cbn.
  rewrite Hreply. cbn.
  match goal with
  | |- context [save_history_safe ?h ?l ?m0] =>
      destruct (save_history_safe_locked h l m0 Hlock) as [line ->]
  end.
  exists line. cbn. now rewrite <- app_assoc.
Qed.

(** X12. When the history file cannot be written, an answered turn still
    goes through: the answer is drawn and the session holds the exchange,
    one line is printed, and the files are as they were, so the transcript
    on disk now lacks that exchange. *)
Theorem user_turn_survives_write_failure
  (inp : inputs) (m : machine) (session : ChatSession) (text answer : string) :
  user_input inp = Some text ->
  text <> "" ->
  user_turn_reply inp = Replies answer ->
  chat_session (state m) = Some (Some session) ->
  get_history_filename (LANG_OPTIONS (selected inp)) ∈ locked (disk m) ->
  exists m' line,
    user_input_handling inp m = (inr tt, m')
    /\ chat_session (state m')
       = Some (Some {| model := model session;
                       history := history session
                                  ++ [sent_content text; received_content answer] |})
    /\ last (screen m') = Some (st_chat_markdown "assistant" answer)
    /\ console m' = (console m ++ [line])%list
    /\ disk m' = disk m.
Proof.
  intros Hin Htext Hreply Hsess Hlock.
  destruct (user_turn_replied_locked inp m session text answer
              Hin Htext Hreply Hsess Hlock) as [line ->].
  eexists _, line. split; [reflexivity |]. cbn. repeat split.
  apply last_Some. eexists (screen m ++ [_])%list. now rewrite <- app_assoc.
Qed.

(** A turn on which the call returns a response without text: reading
    [response.text] raises inside the [try], after the session has grown.
    The error is drawn and nothing is saved. *)
Lemma user_turn_textless
  (inp : inputs) (m : machine) (session : ChatSession) (text : string)
  (received : Content) (e : exn) :
  user_input inp = Some text ->
  text <> "" ->
  user_turn_reply inp = RepliesWithoutText received e ->
  chat_session (state m) = Some (Some session) ->
  user_input_handling inp m =
    (inr tt,
     {| disk := disk m;
        state :=
          {| selected_label_key := selected_label_key (state m);
             chat_session :=
               Some (Some {| model := model session;
                             history := history session
                                        ++ [sent_content text; received] |});
             current_lang_code := current_lang_code (state m);
             is_initialized := is_initialized (state m) |};
        screen :=
          screen m
          ++ [st_chat_markdown "user" text;
              st_error
                match exn_kind e with
                | ServiceUnavailable =>
                    "⚠️ Service Unavailable: Google servers are temporarily down."
                | ResourceExhausted =>
                    "⚠️ API Quota Exceeded. Please use the 'Export to Gemini Web' feature in the sidebar."
                | _ => "An error occurred: " +:+ exn_text e
                end];
        console := console m;
        sent := sent m ++ [(UserTurn, text)] |}).
Proof.
  intros Hin Htext Hreply Hsess. unfold user_input_handling.
  rewrite Hin. destruct text as [|c text]; [done |].
  unfold send_message. cbn. rewrite Hsess. cbn. rewrite Hreply. cbn.
  destruct (exn_kind e); cbn; now rewrite <- app_assoc.
Qed.

(** X13. As long as the history file can be written, the user-input block
    keeps the file equal to the session's history when nothing is typed,
    when the turn is answered with a text and when the call raises. When
    the call returns a response without text, the session keeps the exchange
    and nothing is saved: the file and the session then differ. *)
Theorem user_turn_keeps_file_in_sync (inp : inputs) (m : machine) :
  in_sync inp m ->
  get_history_filename (LANG_OPTIONS (selected inp)) ∉ locked (disk m) ->
  (user_input inp = None \/ user_input inp = Some ""
   \/ lacks_text (user_turn_reply inp) = false ->
   in_sync inp (user_input_handling inp m).2)
  /\ (forall text session,
        user_input inp = Some text ->
        text <> "" ->
        lacks_text (user_turn_reply inp) = true ->
        chat_session (state m) = Some (Some session) ->
        exists received,
          chat_session (state (user_input_handling inp m).2)
          = Some (Some {| model := model session;
                          history := history session
                                     ++ [sent_content text; received] |})
          /\ disk (user_input_handling inp m).2 = disk m
          /\ ~ in_sync inp (user_input_handling inp m).2).
Proof.
  intros (session & Hsess & Hfile) Hlock. split.
  - intros Hcase. destruct (user_input inp) as [text|] eqn:Hin.
    + destruct (decide (text = "")) as [->|Htext].
      { unfold user_input_handling. rewrite Hin. cbn. now exists session. }
      destruct (user_turn_reply inp) as [answer|e|received e] eqn:Hreply.
      * rewrite (user_turn_replied inp m session text answer) by assumption.
        eexists. cbn. split; [reflexivity |]. apply lookup_insert_eq.
      * rewrite (user_turn_raised inp m session text e) by assumption.
        now exists session.
      * destruct Hcase as [H|[H|H]]; [discriminate H | | discriminate H].
        injection H as ->. done.
    + rewrite user_input_handling_idle by assumption. now exists session.
  - intros text session' Hin Htext Hlacks Hsess'.
    destruct (user_turn_reply inp) as [answer|e|received e] eqn:Hreply;
      try discriminate Hlacks.
    assert (session' = session) as -> by congruence.
    rewrite (user_turn_textless inp m session text received e) by assumption.
    exists received. cbn. split; [reflexivity |]. split; [reflexivity |].
    intros (session2 & Hsess2 & Hfile2). cbn in Hsess2, Hfile2.
    injection Hsess2 as <-. cbn in Hfile2. rewrite Hfile in Hfile2.
    injection Hfile2 as Hsame. apply (f_equal length) in Hsame.
    rewrite !length_map, length_app in Hsame. cbn in Hsame. lia.
Qed.




(** ** After a clear *)

Lemma sidebar_confirmed (inp : inputs) (m : machine) :
  confirm_delete inp = true ->
  String.eqb (lower (strip (confirm_text inp))) "delete" = true ->
  exists m0,
    sidebar inp m = clear_current_history (LANG_OPTIONS (selected inp)) m0
    /\ drew_only m m0.
Proof.
  intros Hc Hw. unfold sidebar, clear_history_switch. cbn. rewrite Hc, Hw.
  match goal with
  | |- context [clear_current_history ?l ?m0] =>
      exists m0; split; [| now repeat split];
      destruct (clear_current_history_reruns l m0) as (m1 & -> & _)
  end.
  reflexivity.
Qed.

Lemma chat_interface_none (inp : inputs) (m : machine) :
  chat_session (state m) = Some None ->
  exists m', chat_interface inp m = (inr tt, m') /\ drew_only m m'.
Proof.
  intros K. unfold chat_interface. cbn. rewrite K. cbn.
  eexists. split; [reflexivity |]. now repeat split.
Qed.

Lemma cold_start_without_session (inp : inputs) (m : machine) (b : bool) :
  chat_session (state m) = Some None ->
  is_initialized (state m) = Some b ->
  exists m', cold_start inp m = (inr tt, m') /\ drew_only m m'.
Proof.
  intros K I. unfold cold_start. cbn. rewrite I. destruct b.
  - exists m. split; [reflexivity | apply drew_only_refl].
  - unfold send_message. cbn. rewrite K. cbn.
    eexists. split; [reflexivity |]. now repeat split.
Qed.

Lemma user_turn_without_session (inp : inputs) (m : machine) (text : string) :
  user_input inp = Some text ->
  text <> "" ->
  chat_session (state m) = Some None ->
  user_input_handling inp m =
    (inr tt,
     {| disk := disk m; state := state m;
        screen :=
          screen m
          ++ [st_chat_markdown "user" text;
              st_error "An error occurred: 'NoneType' object has no attribute 'send_message'"];
        console := console m; sent := sent m |}).
Proof.
  intros Hin Htext K. unfold user_input_handling. rewrite Hin.
  destruct text as [|c text]; [done |].
  unfold send_message. cbn. rewrite K. cbn. now rewrite <- app_assoc.
Qed.

(** X15. After a confirmed delete the session is not rebuilt while the
    same language stays selected. The run that deletes ends in a rerun with
    the file gone and [chat_session] set to [None]; in a following run on
    that language the session block does nothing (the key is present and
    the language is the bound one), so a typed message is answered with
    the error of a missing session: no call is made, nothing is saved, and
    [chat_session] is still [None]. *)
Theorem cleared_session_is_not_rebuilt
  (inp inp' : inputs) (m : machine) (b : bool) (text : string) :
  confirm_delete inp = true ->
  String.eqb (lower (strip (confirm_text inp))) "delete" = true ->
  get_history_filename (LANG_OPTIONS (selected inp)) ∉ locked (disk m) ->
  current_lang_code (state m) = Some (LANG_OPTIONS (selected inp)) ->
  is_initialized (state m) = Some b ->
  selected inp' = selected inp ->
  confirm_delete inp' = false ->
  refresh inp' = false ->
  user_input inp' = Some text ->
  text <> "" ->
  exists m1 m2,
    app inp m = (inl Rerun, m1)
    /\ files (disk m1) !! get_history_filename (LANG_OPTIONS (selected inp)) = None
    /\ chat_session (state m1) = Some None
    /\ app inp' m1 = (inr tt, m2)
    /\ chat_session (state m2) = Some None
    /\ last (screen m2)
       = Some (st_error "An error occurred: 'NoneType' object has no attribute 'send_message'")
    /\ sent m2 = sent m
    /\ disk m2 = disk m1.
Proof.
  intros Hc Hw Hlock Hlang Hinit Hsel Hc' Hr' Hin' Htext.
  destruct (default_selection_run m) as (m0 & H0 & D0).
  destruct D0 as (D0 & _ & S0 & K0 & L0 & I0).
  destruct (sidebar_confirmed inp m0 Hc Hw) as (ma & Hside & Da).
  destruct Da as (Da & _ & Sa & Ka & La & Ia).
  assert (get_history_filename (LANG_OPTIONS (selected inp)) ∉ locked (disk ma))
    as Hlocka by now rewrite Da, D0.
  rewrite (clear_current_history_unlocked _ ma Hlocka) in Hside.
  match type of Hside with _ = (_, ?x) => set (m1 := x) in * end.
  assert (app inp m = (inl Rerun, m1)) as Hrun1.
  { unfold app. rewrite (bind_returned _ _ _ _ _ H0).
    now rewrite (bind_signalled _ _ _ _ _ Hside). }
  assert (files (disk m1) !! get_history_filename (LANG_OPTIONS (selected inp)) = None)
    as Hgone by (subst m1; cbn; apply lookup_delete_eq).
  (* the following run *)
  destruct (default_selection_run m1) as (n0 & G0 & E0).
  destruct E0 as (E0 & _ & T0 & Q0 & M0 & J0).
  destruct (sidebar_fresh inp' n0) as (n1 & G1 & E1); try assumption;
    [now rewrite E0, Hsel |].
  destruct E1 as (E1 & _ & T1 & Q1 & M1 & J1).
  assert (chat_session (state n1) = Some None) as Kn1
    by (rewrite Q1, Q0; subst m1; reflexivity).
  assert (current_lang_code (state n1) = Some (LANG_OPTIONS (selected inp'))) as Ln1
    by (rewrite M1, M0, Hsel; subst m1; cbn; congruence).
  pose proof (session_block_kept inp' n1 None Kn1 Ln1) as G2.
  destruct (chat_interface_none inp' n1 Kn1) as (n3 & G3 & E3).
  destruct E3 as (E3 & _ & T3 & Q3 & M3 & J3).
  destruct (cold_start_without_session inp' n3 b) as (n4 & G4 & E4);
    [congruence | rewrite J3, J1, J0; subst m1; cbn; congruence |].
  destruct E4 as (E4 & _ & T4 & Q4 & M4 & J4).
  pose proof (user_turn_without_session inp' n4 text Hin' Htext
                ltac:(congruence)) as G5.
  match type of G5 with _ = (_, ?x) => set (m2 := x) in * end.
  exists m1, m2. split; [exact Hrun1 |]. split; [exact Hgone |].
  split; [subst m1; reflexivity |]. split; [| split; [| split; [| split]]].
  - unfold app.
    rewrite (bind_returned _ _ _ _ _ G0), (bind_returned _ _ _ _ _ G1).
    rewrite (bind_returned _ _ _ _ _ G2), (bind_returned _ _ _ _ _ G3).
    now rewrite (bind_returned _ _ _ _ _ G4).
  - subst m2. cbn. congruence.
  - subst m2. cbn. apply last_Some. eexists (screen n4 ++ [_])%list.
    now rewrite <- app_assoc.
  - subst m2. cbn. rewrite T4, T3, T1, T0. subst m1. cbn. congruence.
  - subst m2. cbn. now rewrite E4, E3, E1, E0.
Qed.

(** ** Runs on a stored history *)

Lemma recent_history_of_list (items : list json) :
  exists recent, recent_history_of (JList items) = inr (JList recent).
Proof.
  unfold recent_history_of. cbn [py_len and_then].
  destruct (MAX_HISTORY_LENGTH <? length items)%nat; cbn; eauto.
Qed.

(** With a list on disk the session block, when it ends, has set a session
    and the flag; it wrote nothing and made no call. *)
Lemma session_block_on_list (inp : inputs) (m : machine) (items : list json) :
  needs_session inp m ->
  files (disk m) !! get_history_filename (LANG_OPTIONS (selected inp))
    = Some (Json (JList items)) ->
  get_history_filename (LANG_OPTIONS (selected inp)) ∉ locked (disk m) ->
  exists r m',
    session_block inp m = (r, m')
    /\ sent m' = sent m
    /\ (r = inr tt ->
        is_initialized (state m') = Some (0 <? length items)%nat
        /\ (exists session, chat_session (state m') = Some (Some session))
        /\ current_lang_code (state m') = Some (LANG_OPTIONS (selected inp))).
Proof.
  intros Hneed Hfile Hlock.
  pose proof (load_history_safe_json _ _ _ Hfile Hlock) as Hload.
  destruct (recent_history_of_list items) as [recent Hrecent].
  unfold session_block. cbn.
  rewrite (needs_session_test _ _ Hneed). cbn. rewrite Hload. cbn.
  rewrite Hrecent. cbn. unfold start_chat.
  destruct (to_contents (JList recent)) as [e|contents]; cbn.
  - destruct (to_contents (JList [])) as [e'|contents]; cbn.
    + eexists _, _. split; [reflexivity |]. split; [reflexivity | discriminate].
    + eexists _, _. split; [reflexivity |]. split; [reflexivity |].
      intros _. cbn. repeat split; eauto.
  - eexists _, _. split; [reflexivity |]. split; [reflexivity |].
    intros _. cbn. repeat split; eauto.
Qed.

(** X16. A run on a language whose file holds a non-empty list makes no
    cold-start call, whatever the inputs, whatever the client does with
    the seed and however the run ends: the only calls it can make are user
    turns. *)
Theorem stored_history_suppresses_cold_start
  (inp : inputs) (m : machine) (items : list json) :
  needs_session inp m ->
  files (disk m) !! get_history_filename (LANG_OPTIONS (selected inp))
    = Some (Json (JList items)) ->
  items <> [] ->
  get_history_filename (LANG_OPTIONS (selected inp)) ∉ locked (disk m) ->
  exists r m' calls,
    app inp m = (r, m')
    /\ sent m' = (sent m ++ calls)%list
    /\ user_turns_only calls.
Proof.
  intros Hneed Hfile Hitems Hlock. unfold app.
  destruct (default_selection_run m) as (m0 & H0 & D0).
  rewrite (bind_returned _ _ _ _ _ H0).
  destruct D0 as (D0 & _ & S0 & K0 & L0 & I0).
  destruct (sidebar_sends_nothing inp m0) as (r1 & m1 & H1 & S1 & D1).
  destruct r1 as [s|[]].
  { rewrite (bind_signalled _ _ _ _ _ H1). exists (inl s), m1, [].
    rewrite app_nil_r. split; [reflexivity |]. split; [congruence | constructor]. }
  rewrite (bind_returned _ _ _ _ _ H1).
  destruct (D1 eq_refl) as (D1' & _ & _ & K1 & L1 & I1).
  destruct (session_block_on_list inp m1 items) as (r2 & m2 & H2 & S2 & F2).
  { destruct Hneed as [N|N]; [left | right]; congruence. }
  { now rewrite D1', D0. }
  { now rewrite D1', D0. }
  destruct r2 as [s|[]].
  { rewrite (bind_signalled _ _ _ _ _ H2). exists (inl s), m2, [].
    rewrite app_nil_r. split; [reflexivity |]. split; [congruence | constructor]. }
  rewrite (bind_returned _ _ _ _ _ H2).
  destruct (F2 eq_refl) as (I2 & _ & _).
  assert (is_initialized (state m2) = Some true) as I2'.
  { rewrite I2. destruct items; [done | reflexivity]. }
  destruct (chat_interface_drew_only inp m2) as (r3 & m3 & H3 & D3).
  destruct D3 as (_ & _ & S3 & K3 & L3 & I3).
  destruct r3 as [s|[]].
  { rewrite (bind_signalled _ _ _ _ _ H3). exists (inl s), m3, [].
    rewrite app_nil_r. split; [reflexivity |]. split; [congruence | constructor]. }
  rewrite (bind_returned _ _ _ _ _ H3).
  rewrite (bind_returned _ _ _ _ _
             (cold_start_skipped inp m3 ltac:(congruence))).
  destruct (user_input_handling_calls inp m3) as (r4 & m4 & calls & H4 & S4 & U4).
  exists r4, m4, calls. split; [exact H4 |]. split; [congruence | exact U4].
Qed.

(** X17. When the export cannot render what the file holds, the run stops
    in the sidebar with that exception (unless the delete was confirmed
    before it): no session is set or changed, no call is made, and the
    files are as they were. *)
Theorem export_failure_stops_the_run
  (inp : inputs) (m : machine) (v : json) (e : exn) :
  files (disk m) !! get_history_filename (LANG_OPTIONS (selected inp))
    = Some (Json v) ->
  get_history_filename (LANG_OPTIONS (selected inp)) ∉ locked (disk m) ->
  export_text (display_name (selected inp)) v = inl e ->
  confirm_delete inp = false
  \/ String.eqb (lower (strip (confirm_text inp))) "delete" = false ->
  exists m',
    app inp m = (inl (Uncaught e), m')
    /\ disk m' = disk m
    /\ sent m' = sent m
    /\ chat_session (state m') = chat_session (state m)
    /\ current_lang_code (state m') = current_lang_code (state m)
    /\ is_initialized (state m') = is_initialized (state m).
Proof.
  intros Hfile Hlock Hexp Hconf.
  destruct (default_selection_run m) as (m0 & H0 & D0).
  destruct D0 as (D0 & _ & S0 & K0 & L0 & I0).
  unfold app. rewrite (bind_returned _ _ _ _ _ H0).
  assert (exists shown,
             clear_history_switch inp
               (snd ((draw (st_header "⚙️ Control Panel");;;
                      set_selected_label_key (display_name (selected inp));;;
                      draw (st_caption ("Model: `" +:+ MODEL_NAME +:+ "`"));;;
                      draw (st_caption ("Memory: Last " +:+ pretty MAX_HISTORY_LENGTH
                                        +:+ " messages"))) m0))
             = (inr tt, shown) /\ drew_only m0 shown) as (ms & Hs & Ds).
  { destruct (String.eqb (lower (strip (confirm_text inp))) "delete") eqn:E.
    - destruct Hconf as [Hc|Hc]; [| discriminate Hc].
      rewrite clear_history_switch_idle by assumption.
      eexists. split; [reflexivity |]. now repeat split.
    - match goal with
      | |- context [clear_history_switch inp ?mx] =>
          destruct (clear_history_switch_refused inp mx E) as [shown ->]
      end.
      eexists. split; [reflexivity |]. now repeat split. }
  destruct Ds as (Ds & _ & Ss & Ks & Ls & Is).
  assert (sidebar inp m0
          = (inl (Uncaught e),
             snd (export_to_web inp ms))) as Hside.
  { unfold sidebar. cbn. cbn in Hs. rewrite Hs. cbn.
    unfold export_to_web. cbn.
    rewrite load_history_safe_json with (v := v)
      by (cbn; rewrite ?Ds, ?D0; assumption).
    cbn. rewrite Hexp. reflexivity. }
  rewrite (bind_signalled _ _ _ _ _ Hside).
  eexists. split; [reflexivity |].
  destruct (quiet_export_to_web inp ms) as (Q1 & Q2 & _).
  destruct (export_to_web_drew_only inp ms) as (r & mx & Hx & Dx).
  rewrite Hx in *. cbn in *.
  destruct Dx as (Dx & _ & Sx & Kx & Lx & Ix).
  repeat split; congruence.
Qed.

Lemma export_lines_without_parts (T : list Content) (text : string) :
  Exists (fun message => parts message = []) T ->
  exists e,
    export_lines (map message_data T) text = inl e /\ exn_kind e = IndexError.
Proof.
  intros H. revert text. induction H as [message T Hm|message T _ IH]; intros text.
  - destruct message as [r ps]. cbn in Hm. subst ps. cbn. eauto.
  - cbn [map export_lines].
    destruct message as [r [|p ps]]; [cbn; eauto |].
    destruct p; cbn; apply IH.
Qed.

(** X18. A stored transcript in which some message has an empty list of
    parts cannot be exported: the export text raises [IndexError], whatever
    the other messages are. *)
Theorem export_raises_without_parts (selected_label : string) (T : list Content) :
  Exists (fun message => parts message = []) T ->
  exists e,
    export_text selected_label (JList (map message_data T)) = inl e
    /\ exn_kind e = IndexError.
Proof.
  intros H. unfold export_text. cbn [py_iter and_then].
  match goal with
  | |- context [export_lines _ ?text] =>
      destruct (export_lines_without_parts T text H) as (e & -> & He)
  end.
  exists e. now split.
Qed.

(** ** The session block on a switch *)

Lemma load_history_safe_same_disk (lang_code : string) (m1 m2 : machine) :
  disk m1 = disk m2 ->
  fst (load_history_safe lang_code m1) = fst (load_history_safe lang_code m2).
Proof.
  intros D.
  destruct (files (disk m1) !! get_history_filename lang_code) as [c|] eqn:F.
  - destruct (decide (get_history_filename lang_code ∈ locked (disk m1))) as [L|L].
    + rewrite (load_history_safe_locked lang_code m1) by eauto.
      rewrite (load_history_safe_locked lang_code m2) by (rewrite <- D; eauto).
      reflexivity.
    + destruct c as [v|raw|raw e].
      * rewrite (load_history_safe_json lang_code v m1) by assumption.
        now rewrite (load_history_safe_json lang_code v m2) by (rewrite <- D; assumption).
      * rewrite (load_history_safe_garbage lang_code raw m1) by assumption.
        now rewrite (load_history_safe_garbage lang_code raw m2)
          by (rewrite <- D; assumption).
      * rewrite (load_history_safe_unreadable lang_code raw e m1) by assumption.
        now rewrite (load_history_safe_unreadable lang_code raw e m2)
          by (rewrite <- D; assumption).
  - rewrite (load_history_safe_absent lang_code m1) by assumption.
    now rewrite (load_history_safe_absent lang_code m2) by (rewrite <- D; assumption).
Qed.

(** X19. The session block swaps the session wholesale: when it runs, the
    session, the bound language and the flag it leaves depend on the files
    and the selected language only, not on what the state held before. *)
Theorem session_block_swaps_wholesale (inp : inputs) (m1 m2 : machine) :
  needs_session inp m1 ->
  needs_session inp m2 ->
  disk m1 = disk m2 ->
  fst (session_block inp m1) = fst (session_block inp m2)
  /\ (fst (session_block inp m1) = inr tt ->
      chat_session (state (session_block inp m1).2)
      = chat_session (state (session_block inp m2).2)
      /\ current_lang_code (state (session_block inp m1).2)
         = current_lang_code (state (session_block inp m2).2)
      /\ is_initialized (state (session_block inp m1).2)
         = is_initialized (state (session_block inp m2).2)).
Proof.
  intros N1 N2 D.
  assert (forall m, needs_session inp m ->
            exists v mv, load_history_safe (LANG_OPTIONS (selected inp)) m = (inr v, mv)
                         /\ disk mv = disk m
                         /\ session_block inp m
                            = (let* recent_history := lift (recent_history_of v) in
                               let* session :=
                                 try_except
                                   (start_chat (initialize_model (display_name (selected inp)))
                                      recent_history)
                                   (fun _ =>
                                      start_chat (initialize_model (display_name (selected inp)))
                                        (JList [])) in
                               set_chat_session (Some session);;;
                               set_current_lang_code (LANG_OPTIONS (selected inp));;;
                               let* n := lift (py_len v) in
                               set_is_initialized (0 <? n)%nat) mv) as Run.
  { intros m N.
    destruct (load_history_safe_drew_only (LANG_OPTIONS (selected inp)) m)
      as (v & mv & Hload & Dv & _).
    exists v, mv. split; [exact Hload |]. split; [exact Dv |].
    unfold session_block. cbn. rewrite (needs_session_test _ _ N). cbn.
    now rewrite Hload. }
  destruct (Run m1 N1) as (v1 & mv1 & L1 & D1 & ->).
  destruct (Run m2 N2) as (v2 & mv2 & L2 & D2 & ->).
  assert (v1 = v2) as <-.
  { pose proof (load_history_safe_same_disk (LANG_OPTIONS (selected inp)) m1 m2 D)
      as E. rewrite L1, L2 in E. cbn in E. congruence. }
  cbn. destruct (recent_history_of v1) as [e|recent]; cbn; [split; [done | discriminate] |].
  unfold start_chat.
  destruct (to_contents recent) as [e|contents]; cbn.
  - destruct (to_contents (JList [])) as [e'|contents]; cbn;
      [split; [done | discriminate] |].
    destruct (py_len v1); cbn; split; try done; discriminate.
  - destruct (py_len v1); cbn; split; try done; discriminate.
Qed.

(** ** The chat interface *)

Lemma render_messages_bubbles (messages : list Content) (m : machine) :
  Forall starts_with_text messages ->
  render_messages messages m =
    (inr tt,
     {| disk := disk m; state := state m;
        screen := screen m ++ map bubble messages;
        console := console m; sent := sent m |}).
Proof.
  intros H. revert m. induction H as [|message rest (text & ps & Hp) _ IH]; intros m.
  - cbn. rewrite app_nil_r. now destruct m.
  - cbn [render_messages]. unfold render_message at 1. cbn. rewrite Hp. cbn.
    rewrite IH. cbn. unfold bubble at 2. rewrite Hp. cbn.
    now rewrite <- app_assoc.
Qed.

(** X20. The chat interface draws the title, the subheader, and then one
    bubble per message of the session's history, in order: [user] for the
    role [user] and [assistant] for any other role, with the text of the
    first part only. It changes nothing else. *)
Theorem chat_interface_draws_history
  (inp : inputs) (m : machine) (session : ChatSession) :
  chat_session (state m) = Some (Some session) ->
  Forall starts_with_text (history session) ->
  chat_interface inp m =
    (inr tt,
     {| disk := disk m; state := state m;
        screen := screen m
                  ++ [st_title "🌍 ProGlot AI";
                      st_subheader (display_name (selected inp) +:+ " Tutor")]
                  ++ map bubble (history session);
        console := console m; sent := sent m |}).
Proof.
  intros K H. unfold chat_interface. cbn. rewrite K. cbn.
  rewrite render_messages_bubbles by assumption. cbn.
  now rewrite <- !app_assoc.
Qed.

(** ** The cold start without a writable file *)

(** X21. When the greeting is answered but the history file cannot be
    written, the cold start still ends normally: the greeting is drawn, the
    session holds the prompt and the greeting, the flag is set, one line is
    printed, and the files are as they were, so the greeting is not on
    disk. *)
Theorem cold_start_survives_write_failure
  (inp : inputs) (m : machine) (session : ChatSession) (answer : string) :
  is_initialized (state m) = Some false ->
  chat_session (state m) = Some (Some session) ->
  cold_start_reply inp = Replies answer ->
  get_history_filename (LANG_OPTIONS (selected inp)) ∈ locked (disk m) ->
  exists m' line,
    cold_start inp m = (inr tt, m')
    /\ is_initialized (state m') = Some true
    /\ chat_session (state m')
       = Some (Some {| model := model session;
                       history :=
                         history session
                         ++ [sent_content (cold_start_prompt (display_name (selected inp)));
                             received_content answer] |})
    /\ screen m' = (screen m ++ [st_chat_markdown "assistant" answer])%list
    /\ console m' = (console m ++ [line])%list
    /\ disk m' = disk m.
Proof.
  intros Hinit Hsess Hreply Hlock. unfold cold_start. cbn. rewrite Hinit.
  unfold send_message, session_history. cbn. rewrite Hsess. cbn.
  rewrite Hreply. cbn.
  match goal with
  | |- context [save_history_safe ?h ?l ?m0] =>
      destruct (save_history_safe_locked h l m0 Hlock) as [line ->]
  end.
  eexists _, line. split; [reflexivity |]. cbn. now repeat split.
Qed.

(** ** The window *)

Lemma slice_last_length {A : Type} (n : nat) (l : list A) :
  (0 < n)%nat -> (length (slice_last n l) <= n)%nat.
Proof.
  intros Hn. destruct n as [|n]; [lia |]. unfold slice_last.
  rewrite length_drop. lia.
Qed.

(** X22. The window of a stored list never has more than
    [MAX_HISTORY_LENGTH] items, it is the end of the list, and taking the
    window of a window changes nothing. *)
Theorem sliding_window_is_bounded_and_stable (items : list json) :
  exists older recent,
    recent_history_of (JList items) = inr (JList recent)
    /\ items = (older ++ recent)%list
    /\ (length recent <= MAX_HISTORY_LENGTH)%nat
    /\ recent_history_of (JList recent) = inr (JList recent).
Proof.
  unfold recent_history_of. cbn [py_len and_then].
  destruct (MAX_HISTORY_LENGTH <? length items)%nat eqn:E.
  - apply Nat.ltb_lt in E.
    destruct (slice_last_split MAX_HISTORY_LENGTH items) as [S L];
      [unfold MAX_HISTORY_LENGTH in *; lia |].
    exists (take (length items - MAX_HISTORY_LENGTH) items),
           (slice_last MAX_HISTORY_LENGTH items).
    cbn [py_slice_last]. repeat split; [exact S | lia |].
    rewrite L, Nat.ltb_irrefl. reflexivity.
  - exists [], items. apply Nat.ltb_ge in E. repeat split; [exact E |].
    apply Nat.ltb_ge in E. now rewrite E.
Qed.

(** ** The confirmation word *)






























(** ** The cold start on a response without text *)


End Script.

(** * The properties on sample runs *)

(** C1 on a sample: a 25-message Italian file, a first run, then a turn
    that is answered. The file ends with 22 messages. *)
Lemma user_turn_saves_session_history_sample :
  exists m1 m2 saved,
    session_block strict_contents (idle_inputs (Replies ""))
      (machine_with (Json (JList (map message_data (sample_transcript 25)))))
    = (inr tt, m1)
    /\ user_input_handling (typed_inputs "Ciao" (Replies "Ciao! Come stai?")) m1
       = (inr tt, m2)
    /\ files (disk m2) !! "history_It.json"
       = Some (Json (JList (map message_data saved)))
    /\ length saved = 22%nat
    /\ saved = (drop 5 (sample_transcript 25)
                ++ [sent_content "Ciao"; received_content "Ciao! Come stai?"])%list
    /\ transcript_of_data (JList (map message_data saved)) = Some saved.
Proof.
  destruct (proj2 (user_turn_saves_session_history strict_contents)
              (idle_inputs (Replies ""))
              (typed_inputs "Ciao" (Replies "Ciao! Come stai?"))
              (machine_with (Json (JList (map message_data (sample_transcript 25)))))
              (sample_transcript 25) "Ciao" "Ciao! Come stai?")
    as (m1 & m2 & saved & H1 & H2 & H3 & H4 & H5 & _ & H6 & H7).
  - left. reflexivity.
  - vm_compute. reflexivity.
  - compute_done.
  - vm_compute. lia.
  - vm_compute. reflexivity.
  - reflexivity.
  - reflexivity.
  - discriminate.
  - reflexivity.
  - exists m1, m2, saved. repeat split; try assumption.
    rewrite H6, H7; [reflexivity |].
    repeat constructor; eexists; reflexivity.
Defined.

(** C2 on a sample: the window of 25 messages. *)
Lemma sliding_window_last_messages_sample :
  exists older recent,
    map message_data (sample_transcript 25) = (older ++ recent)%list
    /\ length recent = MAX_HISTORY_LENGTH
    /\ recent_history_of (JList (map message_data (sample_transcript 25)))
       = inr (JList recent).
Proof.
  refine (proj2 (proj2 (sliding_window_last_messages
                          (map message_data (sample_transcript 25)))) _).
  vm_compute. lia.
Defined.

(** C3 on a sample: three messages saved in an empty directory. *)
Lemma load_after_save_roundtrip_sample :
  exists v m',
    load_history_safe "It"
      (save_history_safe (sample_transcript 3) "It" empty_machine).2 = (inr v, m')
    /\ v = JList (map message_data (sample_transcript 3))
    /\ transcript_of_data v = Some (sample_transcript 3).
Proof.
  apply (load_after_save_roundtrip (sample_transcript 3) "It" empty_machine).
  - repeat constructor; eexists; reflexivity.
  - compute_done.
Defined.

(** C4 on a sample: a file that is no JSON loads as the empty list. *)
Lemma load_history_safe_never_raises_sample :
  exists m',
    load_history_safe "It" (machine_with (Garbage "{oops")) = (inr (JList []), m').
Proof.
  destruct (load_history_safe_never_raises "It" (machine_with (Garbage "{oops")))
    as (v & m' & H & _ & _ & G & _).
  exists m'. rewrite <- (G "{oops"); [exact H |]. vm_compute. reflexivity.
Defined.

(** C5 on a sample: the first Italian run in an empty directory. *)
Lemma cold_start_runs_once_sample :
  exists m',
    app strict_contents scalar_str (idle_inputs (Replies "Merhaba")) empty_machine
    = (inr tt, m')
    /\ sent m' = [(ColdStart, cold_start_prompt (display_name Italian))]
    /\ files (disk m') !! "history_It.json"
       = Some (Json (JList
                       [message_data
                          (sent_content (cold_start_prompt (display_name Italian)));
                        message_data (received_content "Merhaba")]))
    /\ is_initialized (state m') = Some true.
Proof.
  destruct (cold_start_runs_once_on_fresh_language strict_contents scalar_str
              (idle_inputs (Replies "Merhaba")) empty_machine)
    as (_ & Hok & _).
  - vm_compute. reflexivity.
  - left. reflexivity.
  - reflexivity.
  - reflexivity.
  - reflexivity.
  - reflexivity.
  - destruct (Hok "Merhaba" eq_refl ltac:(compute_done))
      as (m' & H1 & H2 & H3 & H4 & _).
    exists m'. repeat split; assumption.
Defined.

(** C6 on a sample: a quota error in a live session. *)
Lemma quota_error_names_export_sample :
  exists m' message,
    user_input_handling
      (typed_inputs "Ciao" (Raises (Exn ResourceExhausted "429 quota exceeded")))
      (machine_in_session (sample_transcript 2)) = (inr tt, m')
    /\ last (screen m') = Some (st_error message)
    /\ mentions message "Export to Gemini Web"
    /\ disk m' = disk (machine_in_session (sample_transcript 2)).
Proof.
  destruct (quota_error_names_export
              (typed_inputs "Ciao" (Raises (Exn ResourceExhausted "429 quota exceeded")))
              (machine_in_session (sample_transcript 2))
              {| model := initialize_model (display_name Italian);
                 history := sample_transcript 2 |}
              "Ciao" "429 quota exceeded")
    as (m' & message & H1 & H2 & H3 & _ & H4 & _).
  - reflexivity.
  - discriminate.
  - reflexivity.
  - reflexivity.
  - exists m', message. repeat split; assumption.
Defined.

(** C7 on a sample: the button pressed with a wrong word. *)
Lemma clear_history_needs_confirmation_sample :
  (clear_history_switch (delete_inputs "delet")
     (machine_in_session (sample_transcript 2))).1 = inr tt
  /\ disk (clear_history_switch (delete_inputs "delet")
             (machine_in_session (sample_transcript 2))).2
     = disk (machine_in_session (sample_transcript 2))
  /\ state (clear_history_switch (delete_inputs "delet")
              (machine_in_session (sample_transcript 2))).2
     = state (machine_in_session (sample_transcript 2)).
Proof.
  exact (proj1 (clear_history_needs_confirmation (delete_inputs "delet")
                  (machine_in_session (sample_transcript 2))) eq_refl).
Defined.

(** C8 on a sample: a stored value the client refuses. *)
Lemma start_chat_falls_back_to_empty_sample :
  exists m',
    session_block strict_contents (idle_inputs (Replies ""))
      (machine_with (Json (JList [JNum "7"]))) = (inr tt, m')
    /\ chat_session (state m')
       = Some (Some {| model := initialize_model (display_name Italian);
                       history := [] |})
    /\ current_lang_code (state m') = Some "It".
Proof.
  apply (start_chat_falls_back_to_empty strict_contents (idle_inputs (Replies ""))
           (machine_with (Json (JList [JNum "7"])))
           (machine_with (Json (JList [JNum "7"])))
           (JList [JNum "7"]) (JList [JNum "7"])
           (Exn TypeError "Could not create `Content` from the seed")).
  - left. reflexivity.
  - vm_compute. reflexivity.
  - reflexivity.
  - reflexivity.
  - reflexivity.
Defined.


(** C10 on a sample: a non-empty file whose seed is refused. *)
Lemma flag_follows_disk_not_seed_sample :
  exists m',
    session_block strict_contents (idle_inputs (Replies ""))
      (machine_with (Json (JList [JNum "7"]))) = (inr tt, m')
    /\ is_initialized (state m') = Some true
    /\ cold_start (idle_inputs (Replies "")) m' = (inr tt, m').
Proof.
  destruct (flag_follows_disk_not_seed strict_contents (idle_inputs (Replies ""))
              (machine_with (Json (JList [JNum "7"]))) [JNum "7"] (JList [JNum "7"]))
    as (m' & H1 & _ & H2).
  - left. reflexivity.
  - vm_compute. reflexivity.
  - compute_done.
  - reflexivity.
  - reflexivity.
  - destruct (H2 (Exn TypeError "Could not create `Content` from the seed")
                eq_refl ltac:(discriminate)) as (_ & I & C & _).
    exists m'. repeat split; assumption.
Defined.

(** C7 as the spec states it fails: the text [ DELETE ] is not the literal
    [delete], and the button pressed with it removes the file, drops the
    session and asks for a rerun. *)
Lemma confirmation_is_not_a_literal_match :
  confirm_text (delete_inputs " DELETE ") <> "delete"
  /\ is_Some (files (disk (machine_in_session (sample_transcript 2)))
                !! "history_It.json")
  /\ (clear_history_switch (delete_inputs " DELETE ")
        (machine_in_session (sample_transcript 2))).1 = inl Rerun
  /\ files (disk (clear_history_switch (delete_inputs " DELETE ")
                    (machine_in_session (sample_transcript 2))).2)
       !! "history_It.json" = None
  /\ chat_session (state (clear_history_switch (delete_inputs " DELETE ")
                            (machine_in_session (sample_transcript 2))).2)
     = Some None.
Proof.
  split; [discriminate |]. split; [eexists; vm_compute; reflexivity |].
  vm_compute. repeat split.
Qed.

(** The white space outside ASCII is stripped as well: the word between a
    no-break space and an ideographic space confirms the delete. *)
Example confirmation_strips_unicode_blanks :
  lower (strip padded_delete) = "delete"
  /\ (clear_history_switch (delete_inputs padded_delete)
        (machine_in_session (sample_transcript 2))).1 = inl Rerun
  /\ files (disk (clear_history_switch (delete_inputs padded_delete)
                    (machine_in_session (sample_transcript 2))).2)
       !! "history_It.json" = None.
Proof. vm_compute. repeat split. Qed.


(** * The further properties on sample runs *)

(** X2 on a sample: an answered Italian turn leaves the Spanish file. *)
Lemma run_touches_only_selected_file_sample :
  files (disk (app strict_contents scalar_str
                 (typed_inputs "Ciao" (Replies "Ciao!")) two_language_machine).2)
    !! "history_Es.json"
  = files (disk two_language_machine) !! "history_Es.json".
Proof.
  apply (run_touches_only_selected_file strict_contents scalar_str
           (typed_inputs "Ciao" (Replies "Ciao!")) two_language_machine
           "history_Es.json").
  vm_compute. discriminate.
Defined.

(** X3 on a sample: the button pressed with a wrong word loses no file. *)
Lemma run_deletes_only_on_confirmation_sample :
  is_Some (files (disk (app strict_contents scalar_str (delete_inputs "delet")
                          two_language_machine).2) !! "history_It.json").
Proof.
  apply (run_deletes_only_on_confirmation strict_contents scalar_str
           (delete_inputs "delet") two_language_machine "history_It.json").
  - right. reflexivity.
  - eexists. vm_compute. reflexivity.
Defined.

(** X4 on a sample: the code [I-t] gives [history_It.json]. *)
Lemma history_filename_is_sanitized_sample :
  exists safe_name,
    get_history_filename "I-t" = "history_" +:+ safe_name +:+ ".json"
    /\ safe_name = "It".
Proof.
  destruct (history_filename_is_sanitized "I-t" eq_refl)
    as (safe_name & H1 & H2 & _).
  exists safe_name. split; [exact H1 | exact H2].
Defined.

(** X5 on a sample: [I-t] and [It] share a file. *)
Lemma history_filename_ignores_symbols_sample :
  get_history_filename ("I" +:+ String "-"%char "t") = get_history_filename ("I" +:+ "t").
Proof.
  exact (history_filename_ignores_symbols "I" "t" "-"%char
           eq_refl eq_refl eq_refl eq_refl).
Defined.

(** X6 on a sample. *)
Lemma languages_have_distinct_files_sample : Italian = Italian.
Proof. exact (languages_have_distinct_files Italian Italian eq_refl). Defined.

(** X11 on a sample: an unknown failure on a turn. *)
Lemma user_turn_error_changes_nothing_sample :
  exists m',
    user_input_handling
      (typed_inputs "Ciao" (Raises (Exn OtherException "connection reset")))
      (machine_in_session (sample_transcript 2)) = (inr tt, m')
    /\ last (screen m') = Some (st_error "An error occurred: connection reset")
    /\ disk m' = disk (machine_in_session (sample_transcript 2)).
Proof.
  destruct (user_turn_error_changes_nothing
              (typed_inputs "Ciao" (Raises (Exn OtherException "connection reset")))
              (machine_in_session (sample_transcript 2))
              {| model := initialize_model (display_name Italian);
                 history := sample_transcript 2 |}
              "Ciao" (Exn OtherException "connection reset"))
    as (m' & message & H1 & H2 & _ & H3 & _ & _ & _ & H4).
  - reflexivity.
  - discriminate.
  - reflexivity.
  - reflexivity.
  - exists m'. split; [exact H1 |]. split; [| exact H3].
    rewrite H2, (H4 ltac:(discriminate) ltac:(discriminate)).
    vm_compute. reflexivity.
Defined.

(** X12 on a sample: an answered turn beside a file that cannot be
    written. *)
Lemma user_turn_survives_write_failure_sample :
  exists m' line,
    user_input_handling (typed_inputs "Ciao" (Replies "Ciao!"))
      (locked_machine (sample_transcript 2) true) = (inr tt, m')
    /\ console m' = [line]
    /\ disk m' = disk (locked_machine (sample_transcript 2) true).
Proof.
  destruct (user_turn_survives_write_failure
              (typed_inputs "Ciao" (Replies "Ciao!"))
              (locked_machine (sample_transcript 2) true)
              {| model := initialize_model (display_name Italian);
                 history := sample_transcript 2 |}
              "Ciao" "Ciao!")
    as (m' & line & H1 & _ & _ & H2 & H3).
  - reflexivity.
  - discriminate.
  - reflexivity.
  - reflexivity.
  - compute_done.
  - exists m', line. repeat split; assumption.
Defined.

(** X13 on a sample: file and session agree after an answered turn. *)
Lemma user_turn_keeps_file_in_sync_sample :
  in_sync (typed_inputs "Ciao" (Replies "Ciao!"))
    (user_input_handling (typed_inputs "Ciao" (Replies "Ciao!"))
       (machine_in_session (sample_transcript 2))).2.
Proof.
  refine (proj1 (user_turn_keeps_file_in_sync (typed_inputs "Ciao" (Replies "Ciao!"))
                   (machine_in_session (sample_transcript 2)) _ _) _).
  - eexists. split; [reflexivity |]. vm_compute. reflexivity.
  - compute_done.
  - right. right. reflexivity.
Defined.


(** X15 on a sample: a confirmed delete, then a message typed. *)
Lemma cleared_session_is_not_rebuilt_sample :
  exists m1 m2,
    app strict_contents scalar_str (delete_inputs " DELETE ")
      (machine_in_session (sample_transcript 2)) = (inl Rerun, m1)
    /\ app strict_contents scalar_str (typed_inputs "Ciao" (Replies "Ciao!")) m1
       = (inr tt, m2)
    /\ chat_session (state m2) = Some None
    /\ sent m2 = [].
Proof.
  destruct (cleared_session_is_not_rebuilt strict_contents scalar_str
              (delete_inputs " DELETE ") (typed_inputs "Ciao" (Replies "Ciao!"))
              (machine_in_session (sample_transcript 2)) true "Ciao")
    as (m1 & m2 & H1 & _ & _ & H2 & H3 & _ & H4 & _).
  - reflexivity.
  - reflexivity.
  - compute_done.
  - reflexivity.
  - reflexivity.
  - reflexivity.
  - reflexivity.
  - reflexivity.
  - reflexivity.
  - discriminate.
  - exists m1, m2. repeat split; assumption.
Defined.

(** X16 on a sample: a first run beside a 25-message file. *)
Lemma stored_history_suppresses_cold_start_sample :
  exists r m' calls,
    app strict_contents scalar_str (idle_inputs (Replies "Merhaba"))
      (machine_with (Json (JList (map message_data (sample_transcript 25)))))
    = (r, m')
    /\ sent m' = calls
    /\ user_turns_only calls.
Proof.
  destruct (stored_history_suppresses_cold_start strict_contents scalar_str
              (idle_inputs (Replies "Merhaba"))
              (machine_with (Json (JList (map message_data (sample_transcript 25)))))
              (map message_data (sample_transcript 25)))
    as (r & m' & calls & H1 & H2 & H3).
  - left. reflexivity.
  - vm_compute. reflexivity.
  - discriminate.
  - compute_done.
  - exists r, m', calls. repeat split; assumption.
Defined.

(** X17 on a sample: a stored message with no part stops the run. *)
Lemma export_failure_stops_the_run_sample :
  exists m',
    app strict_contents scalar_str (idle_inputs (Replies "Merhaba"))
      (machine_with (Json (JList [message_data empty_message])))
    = (inl (Uncaught (Exn IndexError "list index out of range")), m')
    /\ sent m' = []
    /\ chat_session (state m') = None.
Proof.
  destruct (export_failure_stops_the_run strict_contents scalar_str
              (idle_inputs (Replies "Merhaba"))
              (machine_with (Json (JList [message_data empty_message])))
              (JList [message_data empty_message])
              (Exn IndexError "list index out of range"))
    as (m' & H1 & _ & H2 & H3 & _).
  - vm_compute. reflexivity.
  - compute_done.
  - reflexivity.
  - left. reflexivity.
  - exists m'. repeat split; assumption.
Defined.

(** X18 on a sample: the second of two messages has no part. *)
Lemma export_raises_without_parts_sample :
  exists e,
    export_text scalar_str (display_name Italian)
      (JList (map message_data [sent_content "Ciao"; empty_message])) = inl e
    /\ exn_kind e = IndexError.
Proof.
  apply (export_raises_without_parts scalar_str (display_name Italian)
           [sent_content "Ciao"; empty_message]).
  apply Exists_cons_tl, Exists_cons_hd. reflexivity.
Defined.

(** X19 on a sample: a first run and a switch from Spanish load the same
    Italian session. *)
Lemma session_block_swaps_wholesale_sample :
  chat_session
    (state (session_block strict_contents (idle_inputs (Replies ""))
              (machine_with (Json (JList (map message_data (sample_transcript 3)))))).2)
  = chat_session
      (state (session_block strict_contents (idle_inputs (Replies ""))
                (spanish_machine_with
                   (Json (JList (map message_data (sample_transcript 3)))))).2).
Proof.
  refine (proj1 (proj2 (session_block_swaps_wholesale strict_contents
                          (idle_inputs (Replies ""))
                          (machine_with (Json (JList (map message_data (sample_transcript 3)))))
                          (spanish_machine_with
                             (Json (JList (map message_data (sample_transcript 3)))))
                          _ _ _) _)).
  - left. reflexivity.
  - right. discriminate.
  - reflexivity.
  - vm_compute. reflexivity.
Defined.

(** X20 on a sample: three bubbles. *)
Lemma chat_interface_draws_history_sample :
  (chat_interface (idle_inputs (Replies ""))
     (machine_in_session (sample_transcript 3))).1 = inr tt
  /\ screen (chat_interface (idle_inputs (Replies ""))
               (machine_in_session (sample_transcript 3))).2
     = [st_title "🌍 ProGlot AI";
        st_subheader (display_name Italian +:+ " Tutor");
        st_chat_markdown "user" "message 0";
        st_chat_markdown "assistant" "message 1";
        st_chat_markdown "user" "message 2"].
Proof.
  rewrite (chat_interface_draws_history (idle_inputs (Replies ""))
             (machine_in_session (sample_transcript 3))
             {| model := initialize_model (display_name Italian);
                history := sample_transcript 3 |}).
  - split; reflexivity.
  - reflexivity.
  - repeat constructor; eexists; eexists; reflexivity.
Defined.

(** X21 on a sample: the greeting answered beside a file that cannot be
    written. *)
Lemma cold_start_survives_write_failure_sample :
  exists m' line,
    cold_start (idle_inputs (Replies "Merhaba")) (locked_machine [] false)
    = (inr tt, m')
    /\ is_initialized (state m') = Some true
    /\ console m' = [line]
    /\ disk m' = disk (locked_machine [] false).
Proof.
  destruct (cold_start_survives_write_failure (idle_inputs (Replies "Merhaba"))
              (locked_machine [] false)
              {| model := initialize_model (display_name Italian); history := [] |}
              "Merhaba")
    as (m' & line & H1 & H2 & _ & _ & H3 & H4).
  - reflexivity.
  - reflexivity.
  - reflexivity.
  - compute_done.
  - exists m', line. repeat split; assumption.
Defined.


